(** * weather-mcp: the request handler and the provider client

    A shallow embedding of the two deployment variants of the server
    (the JSON-RPC one and the plain [{tool, operation, parameters}] one),
    of the provider client [fetchWeatherData] they share and of the library
    function [getWeatherForCity], followed by the properties of the
    specification that were checked against them.

    What the model keeps of the run-time: JavaScript values as JSON gives
    them, abrupt completions ([throw]) as an error result, and the list of
    outbound requests a call issues.  Console output is not modelled, except
    that a template literal which interpolates a request value can raise and
    is therefore kept as a [ToString] step.  An [await] is modelled by the
    settled value of its promise: the provider always answers or fails. *)

From Stdlib Require Import List String Ascii NArith Bool Lia.
Import ListNotations.

(* ================================================================= *)
(** ** ECMAScript values and the built-ins the program calls *)

Module Js.

(** A string is a sequence of UTF-16 code units; [lit] writes one from an
    ASCII literal. *)
Definition code_unit := N.
Definition jstring := list code_unit.

Definition lit (s : string) : jstring :=
  map N_of_ascii (list_ascii_of_string s).
Arguments lit s%_string.

Fixpoint jstring_eqb (a b : jstring) : bool :=
  match a, b with
  | [], [] => true
  | x :: a', y :: b' => N.eqb x y && jstring_eqb a' b'
  | _, _ => false
  end.

(** Values.  A number is held by the decimal text that Number::toString
    gives it, which fixes the double up to the sign of zero: the program
    only tests numbers for truthiness, compares them with three integer
    constants and prints them.  An object lists its own properties, each key
    once, as [JSON.parse] builds them. *)
#[warnings="-register-all"]
Inductive JsVal : Type :=
| JUndefined
| JNull
| JBool (b : bool)
| JNum (text : jstring)
| JStr (s : jstring)
| JArr (items : list JsVal)
| JObj (props : list (jstring * JsVal)).

Inductive JsError : Type :=
| Error (message : jstring)       (* [throw new Error(message)] *)
| TypeError                       (* raised by the engine *)
| URIError                        (* raised by [encodeURIComponent] *)
| HostError (message : jstring).  (* what a rejected host promise carries *)

Inductive Completion (A : Type) : Type :=
| Normal (a : A)
| Throw (e : JsError).
Arguments Normal {A} a.
Arguments Throw {A} e.

Definition cbind {A B} (c : Completion A) (k : A -> Completion B) : Completion B :=
  match c with
  | Normal a => k a
  | Throw e => Throw e
  end.

Notation "'let!' x ':=' c 'in' k" := (cbind c (fun x => k))
  (at level 10, x name, c at level 100, k at level 200).

(** ToBoolean *)
Definition truthy (v : JsVal) : bool :=
  match v with
  | JUndefined | JNull => false
  | JBool b => b
  | JNum t => negb (jstring_eqb t (lit "0")) && negb (jstring_eqb t (lit "NaN"))
  | JStr s => match s with [] => false | _ => true end
  | JArr _ | JObj _ => true
  end.

(** [a || b] *)
Definition js_or (a b : JsVal) : JsVal := if truthy a then a else b.

(** [v === 'text'] and [v === n] against a constant. *)
Definition is_string (v : JsVal) (s : jstring) : bool :=
  match v with JStr t => jstring_eqb t s | _ => false end.

Definition is_number (v : JsVal) (n : jstring) : bool :=
  match v with JNum t => jstring_eqb t n | _ => false end.

(** Own-property lookup; [undefined] when the key is absent. *)
Fixpoint own (props : list (jstring * JsVal)) (k : jstring) : JsVal :=
  match props with
  | [] => JUndefined
  | (k', v) :: rest => if jstring_eqb k' k then v else own rest k
  end.

Definition has_own (props : list (jstring * JsVal)) (k : jstring) : bool :=
  existsb (fun kv => jstring_eqb (fst kv) k) props.

(** [v.k] for the property names the program reads.  None of them is
    inherited (they are not names of Object, Array, String, Number or
    Boolean prototype members), so only an object's own properties answer;
    reading a property of [undefined] or [null] raises. *)
Definition Get (v : JsVal) (k : jstring) : Completion JsVal :=
  match v with
  | JUndefined | JNull => Throw TypeError
  | JObj props => Normal (own props k)
  | JBool _ | JNum _ | JStr _ | JArr _ => Normal JUndefined
  end.

(** [v[0]] *)
Definition index0 (v : JsVal) : Completion JsVal :=
  match v with
  | JUndefined | JNull => Throw TypeError
  | JArr items => Normal (match items with x :: _ => x | [] => JUndefined end)
  | JStr s => Normal (match s with c :: _ => JStr [c] | [] => JUndefined end)
  | JObj props => Normal (own props (lit "0"))
  | JBool _ | JNum _ => Normal JUndefined
  end.

(** Array.prototype.join over an element printer: [undefined] and [null]
    print as the empty string, the pieces are taken left to right. *)
Section Join.
Variable elem : JsVal -> Completion jstring.
Variable sep : jstring.

Definition piece (x : JsVal) : Completion jstring :=
  match x with
  | JUndefined | JNull => Normal []
  | _ => elem x
  end.

Fixpoint join_items (items : list JsVal) : Completion jstring :=
  match items with
  | [] => Normal []
  | x :: rest =>
      let! s := piece x in
      match rest with
      | [] => Normal s
      | _ :: _ => let! r := join_items rest in Normal (s ++ sep ++ r)
      end
  end.
End Join.

(** ToString, as a template literal or [join] applies it.  An object
    prints as [[object Object]] through the inherited method; an own
    property named [toString] hides that method, is not callable (it came
    from JSON), and the inherited [valueOf] returns the object itself, so
    the conversion raises. *)
Fixpoint ToString (v : JsVal) : Completion jstring :=
  match v with
  | JUndefined => Normal (lit "undefined")
  | JNull => Normal (lit "null")
  | JBool b => Normal (if b then lit "true" else lit "false")
  | JNum t => Normal t
  | JStr s => Normal s
  | JArr items => join_items ToString (lit ",") items
  | JObj props =>
      if has_own props (lit "toString") then Throw TypeError
      else Normal (lit "[object Object]")
  end.

(** [v.join(sep)]: only arrays have the method. *)
Definition join (v : JsVal) (sep : jstring) : Completion jstring :=
  match v with
  | JArr items => join_items ToString sep items
  | _ => Throw TypeError
  end.

(** WhiteSpace and LineTerminator code units, which [trim] strips. *)
Definition is_whitespace (c : code_unit) : bool :=
  ((9 <=? c) && (c <=? 13) || (c =? 32) || (c =? 160) || (c =? 5760)
   || (8192 <=? c) && (c <=? 8202) || (c =? 8232) || (c =? 8233)
   || (c =? 8239) || (c =? 8287) || (c =? 12288) || (c =? 65279))%N.

Fixpoint trim_start (s : jstring) : jstring :=
  match s with
  | c :: rest => if is_whitespace c then trim_start rest else s
  | [] => []
  end.

Definition trim_string (s : jstring) : jstring :=
  rev (trim_start (rev (trim_start s))).

(** [v.trim()]: only strings have the method. *)
Definition trim (v : JsVal) : Completion jstring :=
  match v with
  | JStr s => Normal (trim_string s)
  | _ => Throw TypeError
  end.

(** String.prototype.split on a one-unit separator. *)
Fixpoint split_string (sep : code_unit) (s : jstring) : list jstring :=
  match s with
  | [] => [[]]
  | c :: rest =>
      if N.eqb c sep then [] :: split_string sep rest
      else match split_string sep rest with
           | p :: ps => (c :: p) :: ps
           | [] => [[c]]
           end
  end.

Definition dot : code_unit := 46%N.

(** [v.includes('.')]: a string searches its units, an array its elements;
    nothing else has the method. *)
Definition includes_dot (v : JsVal) : Completion bool :=
  match v with
  | JStr s => Normal (existsb (N.eqb dot) s)
  | JArr items => Normal (existsb (fun x => is_string x [dot]) items)
  | _ => Throw TypeError
  end.

(** [v.split('.')]: only strings have the method. *)
Definition split_dot (v : JsVal) : Completion (list JsVal) :=
  match v with
  | JStr s => Normal (map JStr (split_string dot s))
  | _ => Throw TypeError
  end.

(** [encodeURIComponent] of a string: the unreserved units stay, every other
    code point goes out as the percent-escapes of its UTF-8 bytes, and a
    surrogate without its partner raises. *)
Definition between (lo hi c : N) : bool := ((lo <=? c) && (c <=? hi))%N.

Definition is_unreserved (c : code_unit) : bool :=
  between 65 90 c || between 97 122 c || between 48 57 c
  || existsb (N.eqb c) [45; 95; 46; 33; 126; 42; 39; 40; 41]%N.

Definition hex_digit (n : N) : code_unit :=
  (if n <? 10 then 48 + n else 55 + n)%N.

Definition percent (byte : N) : jstring :=
  [37%N; hex_digit (byte / 16); hex_digit (byte mod 16)].

Definition utf8 (cp : N) : list N :=
  (if cp <? 128 then [cp]
   else if cp <? 2048 then [192 + cp / 64; 128 + cp mod 64]
   else if cp <? 65536 then
     [224 + cp / 4096; 128 + (cp / 64) mod 64; 128 + cp mod 64]
   else
     [240 + cp / 262144; 128 + (cp / 4096) mod 64;
      128 + (cp / 64) mod 64; 128 + cp mod 64])%N.

Definition escape (cp : N) : jstring := List.concat (map percent (utf8 cp)).

Fixpoint encodeURIComponent (s : jstring) : Completion jstring :=
  match s with
  | [] => Normal []
  | c :: rest =>
      if is_unreserved c then
        let! r := encodeURIComponent rest in Normal (c :: r)
      else if between 56320 57343 c then Throw URIError
      else if between 55296 56319 c then
        match rest with
        | d :: rest' =>
            if between 56320 57343 d then
              let! r := encodeURIComponent rest' in
              Normal (escape (65536 + (c - 55296) * 1024 + (d - 56320)) ++ r)
            else Throw URIError
        | [] => Throw URIError
        end
      else
        let! r := encodeURIComponent rest in Normal (escape c ++ r)
  end.

(** [typeof v === 'object' && v !== null] and [typeof v === 'string'] *)
Definition is_object (v : JsVal) : bool :=
  match v with JArr _ | JObj _ => true | _ => false end.

Definition is_string_type (v : JsVal) : bool :=
  match v with JStr _ => true | _ => false end.

End Js.

(* ================================================================= *)
(** ** The host: outbound requests and replies *)

Module Host.
Import Js.

(** What [await fetch(url)] settles to: the promise rejects (no connection,
    or the fetch module does not load), or a response arrives with its [ok]
    flag, its status text and what [await response.json()] settles to. *)
Record HttpResponse : Type :=
  { ok : bool; statusText : jstring; json : Completion JsVal }.

Inductive FetchResult : Type :=
| Rejected (e : JsError)
| Answered (response : HttpResponse).

Definition Network := jstring -> FetchResult.

(** A computation that may issue requests: the URLs it asked for, in order,
    and how it completed. *)
Definition IO (A : Type) : Type := (list jstring * Completion A)%type.

Definition ret {A} (a : A) : IO A := ([], Normal a).
Definition throw {A} (e : JsError) : IO A := ([], Throw e).
Definition lift {A} (c : Completion A) : IO A := ([], c).

Definition bind {A B} (m : IO A) (k : A -> IO B) : IO B :=
  match m with
  | (t, Normal a) => let (t', r) := k a in (t ++ t', r)
  | (t, Throw e) => (t, Throw e)
  end.

(** [try { m } catch (e) { h e }] *)
Definition try_catch {A} (m : IO A) (h : JsError -> IO A) : IO A :=
  match m with
  | (t, Normal a) => (t, Normal a)
  | (t, Throw e) => let (t', r) := h e in (t ++ t', r)
  end.

Definition requests {A} (m : IO A) : list jstring := fst m.
Definition outcome {A} (m : IO A) : Completion A := snd m.

(** [await fetch(url)] against a network. *)
Definition fetch (net : Network) (url : jstring) : IO HttpResponse :=
  ([url], match net url with
          | Rejected e => Throw e
          | Answered response => Normal response
          end).

End Host.

Declare Scope io_scope.
Delimit Scope io_scope with io.
Notation "x <- m ;; k" := (Host.bind m (fun x => k))
  (at level 61, m at next level, right associativity) : io_scope.
Notation "x <~ c ;; k" := (Host.bind (Host.lift c) (fun x => k))
  (at level 61, c at next level, right associativity) : io_scope.

Local Open Scope io_scope.

(* ================================================================= *)
(** ** What the two source files have in common *)

Module Shared.
Import Js Host.

(** The credential: the environment's value, or the demonstration key when
    the variable is unset or empty. *)
Definition DEFAULT_API_KEY : jstring := lit "a07119cef2e19d493340c892615a1397".

Definition WEATHERSTACK_API_KEY (env : option jstring) : jstring :=
  match env with
  | Some s => if truthy (JStr s) then s else DEFAULT_API_KEY
  | None => DEFAULT_API_KEY
  end.

Definition WEATHERSTACK_API_URL : jstring :=
  lit "http://api.weatherstack.com/current".

(** [KEY && KEY.length > 0] *)
Definition isValidApiKey (key : jstring) : JsVal :=
  if truthy (JStr key) then JBool (Nat.ltb 0 (List.length key)) else JStr key.

Definition city_required : JsError := Error (lit "City parameter is required").

Definition key_required : JsError :=
  Error (lit "No Weatherstack API key provided. Please set WEATHERSTACK_API_KEY environment variable.").

(** The request URL for an already trimmed and encoded city. *)
Definition api_url (key query : jstring) : jstring :=
  WEATHERSTACK_API_URL ++ lit "?access_key=" ++ key ++ lit "&query=" ++ query.

(** [data.a.b] *)
Definition path (data : JsVal) (a b : jstring) : Completion JsVal :=
  let! x := Get data a in Get x b.

(** The [result] literal of a successful lookup, its members evaluated in
    the order they are written. *)
Definition weather_result (data : JsVal) : Completion JsVal :=
  let! city := path data (lit "location") (lit "name") in
  let! country := path data (lit "location") (lit "country") in
  let! region := path data (lit "location") (lit "region") in
  let! localtime := path data (lit "location") (lit "localtime") in
  let! temperature := path data (lit "current") (lit "temperature") in
  let! descriptions := path data (lit "current") (lit "weather_descriptions") in
  let! weather := join descriptions (lit ", ") in
  let! icons := path data (lit "current") (lit "weather_icons") in
  let! weatherIcon := index0 icons in
  let! windSpeed := path data (lit "current") (lit "wind_speed") in
  let! windDirection := path data (lit "current") (lit "wind_dir") in
  let! humidity := path data (lit "current") (lit "humidity") in
  let! feelsLike := path data (lit "current") (lit "feelslike") in
  let! uvIndex := path data (lit "current") (lit "uv_index") in
  let! visibility := path data (lit "current") (lit "visibility") in
  let! precipitation := path data (lit "current") (lit "precip") in
  let! cloudCover := path data (lit "current") (lit "cloudcover") in
  let! pressure := path data (lit "current") (lit "pressure") in
  Normal (JObj
    [ (lit "city", city);
      (lit "country", country);
      (lit "region", region);
      (lit "localtime", localtime);
      (lit "current", JObj
        [ (lit "temperature", temperature);
          (lit "temperatureUnit", JStr (lit "C"));
          (lit "weather", JStr weather);
          (lit "weatherIcon", weatherIcon);
          (lit "windSpeed", windSpeed);
          (lit "windDirection", windDirection);
          (lit "humidity", humidity);
          (lit "feelsLike", feelsLike);
          (lit "uvIndex", uvIndex);
          (lit "visibility", visibility);
          (lit "precipitation", precipitation);
          (lit "cloudCover", cloudCover);
          (lit "pressure", pressure) ]) ]).

(** [{ status: "not available", message: "Weather data is currently not available" }] *)
Definition UnavailableResult : JsVal :=
  JObj [ (lit "status", JStr (lit "not available"));
         (lit "message", JStr (lit "Weather data is currently not available")) ].

(** The capability descriptor both variants publish. *)
Definition quote : code_unit := 34%N.

Definition capabilities : list (jstring * JsVal) :=
  [ (lit "protocol", JObj [ (lit "name", JStr (lit "mcp"));
                            (lit "version", JStr (lit "0.1.0")) ]);
    (lit "tools", JObj
      [ (lit "weather", JObj
        [ (lit "description", JStr (lit "Get weather information for a location"));
          (lit "operations", JObj
            [ (lit "currentWeather", JObj
              [ (lit "description",
                 JStr (lit "Get current weather for a city or location"));
                (lit "parameters", JObj
                  [ (lit "city", JObj
                    [ (lit "type", JStr (lit "string"));
                      (lit "description",
                       JStr (lit "City name (e.g., " ++ [quote]
                             ++ lit "New York" ++ [quote] ++ lit ")")) ]) ]) ]) ]) ]) ]) ].

(** What the provider's payload decides once it is parsed: an [error]
    member fails the call, with the credential codes told apart. *)
Definition check_payload (data : JsVal) : Completion JsVal :=
  let! err := Get data (lit "error") in
  if truthy err then
    let! code := Get err (lit "code") in
    if is_number code (lit "101") || is_number code (lit "102")
       || is_number code (lit "103")
    then
      let! info := Get err (lit "info") in
      let! text := ToString info in
      Throw (Error (lit "Weatherstack API key error: " ++ text))
    else
      let! info := Get err (lit "info") in
      let! text := ToString info in
      Throw (Error (lit "Weatherstack API error: " ++ text))
  else Normal data.

End Shared.

(* ================================================================= *)
(** ** The JSON-RPC variant of the server *)

Module JsonRpc.
Import Js Host Shared.

(** The HTTP reply the handler sends: [res.status(status).json(body)]. *)
Record Response : Type := reply { status : N; body : JsVal }.

Section Server.
(** The credential the module read at start-up, and the network. *)
Variable key : jstring.
Variable net : Network.

Definition fetchWeatherData (city : JsVal) : IO JsVal :=
  if negb (truthy city) then throw city_required
  else if negb (truthy (isValidApiKey key)) then throw key_required
  else
    normalizedCity <~ trim city ;;
    query <~ encodeURIComponent normalizedCity ;;
    let apiUrl := api_url key query in
    try_catch
      (response <- fetch net apiUrl ;;
       if negb response.(ok) then
         throw (Error (lit "Weatherstack API error: " ++ response.(statusText)))
       else
         data <~ response.(json) ;;
         lift (check_payload data))
      (fun error => throw error).

(** [GET /health] *)
Definition health : Response :=
  reply 200 (JObj [ (lit "status", JStr (lit "healthy"));
                    (lit "apiKeyConfigured", isValidApiKey key) ]).

(** A rejection envelope that carries the request's [id]. *)
Definition rejection (id : JsVal) (code message data : jstring) : JsVal :=
  JObj [ (lit "jsonrpc", JStr (lit "2.0"));
         (lit "id", js_or id JNull);
         (lit "error", JObj [ (lit "code", JNum code);
                              (lit "message", JStr message);
                              (lit "data", JStr data) ]) ].

(** A rejection envelope without an [id] member. *)
Definition anonymous_rejection (code message data : jstring) : JsVal :=
  JObj [ (lit "jsonrpc", JStr (lit "2.0"));
         (lit "error", JObj [ (lit "code", JNum code);
                              (lit "message", JStr message);
                              (lit "data", JStr data) ]) ].

Definition success (id result : JsVal) : JsVal :=
  JObj [ (lit "jsonrpc", JStr (lit "2.0"));
         (lit "id", js_or id JNull);
         (lit "result", result) ].

(** The method name parsed into [tool] and [operation]. *)
Definition resolve_method (method : JsVal) : Completion (JsVal * JsVal) :=
  let! dotted := includes_dot method in
  if dotted then
    let! pieces := split_dot method in
    Normal (nth 0 pieces JUndefined, nth 1 pieces JUndefined)
  else Normal (JStr (lit "weather"), method).

(** The city taken from [params]. *)
Definition extract_city (params : JsVal) : Completion JsVal :=
  if is_object params then Get params (lit "city")
  else if is_string_type params then Normal params
  else Normal JUndefined.

(** The [currentWeather] operation with its own [try]/[catch]. *)
Definition currentWeather (id params : JsVal) : IO Response :=
  try_catch
    (city <~ extract_city params ;;
     if negb (truthy city) then
       ret (reply 200 (rejection id (lit "-32602") (lit "Invalid params")
                                 (lit "City parameter is required")))
     else
       data <- fetchWeatherData city ;;
       result <~ weather_result data ;;
       _ <~ ToString city ;;
       ret (reply 200 (success id result)))
    (fun error => ret (reply 200 (success id UnavailableResult))).

(** The body of a [POST]: envelope checks, method resolution, dispatch. *)
Definition post (req_body : JsVal) : IO Response :=
  jsonrpc <~ Get req_body (lit "jsonrpc") ;;
  id <~ Get req_body (lit "id") ;;
  method <~ Get req_body (lit "method") ;;
  params <~ Get req_body (lit "params") ;;
  if negb (truthy jsonrpc) || negb (is_string jsonrpc (lit "2.0")) then
    _ <~ ToString jsonrpc ;;
    ret (reply 200 (rejection id (lit "-32600") (lit "Invalid Request")
                      (lit "Request must follow JSON-RPC 2.0 specification")))
  else if negb (truthy method) then
    ret (reply 200 (rejection id (lit "-32600") (lit "Invalid Request")
                      (lit "Method is required")))
  else
    resolved <~ resolve_method method ;;
    let (tool, operation) := resolved in
    _ <~ ToString tool ;;
    _ <~ ToString operation ;;
    if negb (is_string tool (lit "weather")) then
      shown <~ ToString tool ;;
      ret (reply 200 (rejection id (lit "-32601") (lit "Method not found")
                        (lit "Unsupported tool: " ++ shown
                         ++ lit ". Currently only 'weather' tool is supported.")))
    else if is_string operation (lit "currentWeather") then
      currentWeather id params
    else
      shown <~ ToString operation ;;
      ret (reply 200 (rejection id (lit "-32601") (lit "Method not found")
                        (lit "Unsupported operation: " ++ shown))).

Definition internal_error : Response :=
  reply 500 (anonymous_rejection (lit "-32603") (lit "Internal error")
                                 (lit "An unexpected error occurred")).

(** The handler registered for every HTTP method on [/mcp]. *)
Definition mcp (req_method : jstring) (req_body : JsVal) : IO Response :=
  try_catch
    (if jstring_eqb req_method (lit "GET") then
       ret (reply 200 (JObj [ (lit "jsonrpc", JStr (lit "2.0"));
                              (lit "result", JObj capabilities) ]))
     else if jstring_eqb req_method (lit "POST") then post req_body
     else
       ret (reply 405 (anonymous_rejection (lit "-32600") (lit "Invalid Request")
                         (lit "HTTP method " ++ req_method ++ lit " not supported"))))
    (fun error => ret internal_error).

Definition getWeatherForCity (city : JsVal) : IO JsVal :=
  try_catch (fetchWeatherData city) (fun error => ret UnavailableResult).

End Server.
End JsonRpc.

(* ================================================================= *)
(** ** The plain variant of the server *)

Module Simple.
Import Js Host Shared.

(** The body of a reply: a JSON value, or the report of the outer [catch],
    [{ error: error.message, message: "Weather data is not available" }].
    The message of an error the engine raised is the engine's own wording,
    so the report is kept by the error it describes. *)
Inductive Body : Type :=
| Json (v : JsVal)
| FaultReport (error : JsError).

Record Response : Type := reply { status : N; body : Body }.

Section Server.
Variable key : jstring.
Variable net : Network.

Definition fetchWeatherData (city : JsVal) : IO JsVal :=
  if negb (truthy city) then throw city_required
  else if negb (truthy (isValidApiKey key)) then throw key_required
  else
    normalizedCity <~ trim city ;;
    query <~ encodeURIComponent normalizedCity ;;
    let apiUrl := api_url key query in
    response <- fetch net apiUrl ;;
    if negb response.(ok) then
      throw (Error (lit "Weatherstack API error: " ++ response.(statusText)))
    else
      data <~ response.(json) ;;
      lift (check_payload data).

(** [GET /mcp] *)
Definition mcp_get : Response := reply 200 (Json (JObj capabilities)).

(** [POST /mcp] *)
Definition mcp_post (req_body : JsVal) : IO Response :=
  try_catch
    (tool <~ Get req_body (lit "tool") ;;
     operation <~ Get req_body (lit "operation") ;;
     parameters <~ Get req_body (lit "parameters") ;;
     if negb (is_string tool (lit "weather")) then
       shown <~ ToString tool ;;
       ret (reply 400 (Json (JObj
         [ (lit "error",
            JStr (lit "Unsupported tool: " ++ shown
                  ++ lit ". Currently only 'weather' tool is supported.")) ])))
     else if is_string operation (lit "currentWeather") then
       try_catch
         (city <~ Get parameters (lit "city") ;;
          data <- fetchWeatherData city ;;
          result <~ weather_result data ;;
          ret (reply 200 (Json (JObj [ (lit "result", result) ]))))
         (fun error =>
            ret (reply 200 (Json (JObj [ (lit "result", UnavailableResult) ]))))
     else
       shown <~ ToString operation ;;
       ret (reply 400 (Json (JObj
         [ (lit "error", JStr (lit "Unsupported operation: " ++ shown)) ]))))
    (fun error => ret (reply 500 (FaultReport error))).

Definition getWeatherForCity (city : JsVal) : IO JsVal :=
  try_catch (fetchWeatherData city) (fun error => ret UnavailableResult).

End Server.
End Simple.

(* ================================================================= *)
(** ** The specification's vocabulary *)

Module Spec.
Import Js Host Shared.

(** The provider client's failures, by the specification's names. *)
Definition InvalidInput : JsError := city_required.
Definition CredentialMissing : JsError := key_required.

(** A JSON-RPC request body seen through its four members, the version
    marker being the supported one. *)
Record envelope (req_body id method params : JsVal) : Prop :=
  { envelope_version : Get req_body (lit "jsonrpc") = Normal (JStr (lit "2.0"));
    envelope_id : Get req_body (lit "id") = Normal id;
    envelope_method : Get req_body (lit "method") = Normal method;
    envelope_params : Get req_body (lit "params") = Normal params }.

(** The method names the [weather] tool's [currentWeather] operation. *)
Definition names_currentWeather (method : JsVal) : Prop :=
  JsonRpc.resolve_method method
  = Normal (JStr (lit "weather"), JStr (lit "currentWeather")).

(** A request body of the plain variant that asks for [currentWeather]. *)
Record plain_call (req_body parameters : JsVal) : Prop :=
  { plain_tool : Get req_body (lit "tool") = Normal (JStr (lit "weather"));
    plain_operation :
      Get req_body (lit "operation") = Normal (JStr (lit "currentWeather"));
    plain_parameters : Get req_body (lit "parameters") = Normal parameters }.

(** A reply is an error envelope when its body has an [error] member, a
    success envelope when it has a [result] member and no [error]. *)
Definition has_member (v : JsVal) (k : jstring) : bool :=
  match v with JObj props => has_own props k | _ => false end.

Definition is_error_envelope (v : JsVal) : bool := has_member v (lit "error").

Definition is_success_envelope (v : JsVal) : bool :=
  has_member v (lit "result") && negb (has_member v (lit "error")).

(** The text before and after the first separator, when there is one. *)
Fixpoint split_first (s : jstring) : option (jstring * jstring) :=
  match s with
  | [] => None
  | c :: rest =>
      if N.eqb c dot then Some ([], rest)
      else match split_first rest with
           | Some (a, b) => Some (c :: a, b)
           | None => None
           end
  end.

(** Method resolution in the specification's words: split on the first
    occurrence of the separator, else default the tool. *)
Definition resolve_spec (s : jstring) : jstring * jstring :=
  match split_first s with
  | Some (tool, operation) => (tool, operation)
  | None => (lit "weather", s)
  end.

(** What the handler's resolution yields on a string: the first two of the
    separator-delimited segments. *)
Definition first_segment (s : jstring) : jstring :=
  match split_first s with Some (a, _) => a | None => s end.

Definition resolve_segments (s : jstring) : jstring * jstring :=
  match split_first s with
  | Some (tool, rest) => (tool, first_segment rest)
  | None => (lit "weather", s)
  end.

Definition count_dots (s : jstring) : nat :=
  List.length (filter (N.eqb dot) s).

(** The description list joined with a comma and a space. *)
Fixpoint comma_join (descriptions : list jstring) : jstring :=
  match descriptions with
  | [] => []
  | [d] => d
  | d :: rest => d ++ lit ", " ++ comma_join rest
  end.

(** A well-formed provider payload: [location] and [current] are objects,
    [weather_descriptions] is a list of strings, [weather_icons] a list. *)
Record well_formed_payload (data : JsVal)
    (location current : list (jstring * JsVal))
    (descriptions : list jstring) (icons : list JsVal) : Prop :=
  { payload_location : Get data (lit "location") = Normal (JObj location);
    payload_current : Get data (lit "current") = Normal (JObj current);
    payload_descriptions :
      own current (lit "weather_descriptions") = JArr (map JStr descriptions);
    payload_icons : own current (lit "weather_icons") = JArr icons }.

(** The normalized output by the specification's field mapping. *)
Definition NormalizedWeather (location current : list (jstring * JsVal))
    (descriptions : list jstring) (icons : list JsVal) : JsVal :=
  JObj
    [ (lit "city", own location (lit "name"));
      (lit "country", own location (lit "country"));
      (lit "region", own location (lit "region"));
      (lit "localtime", own location (lit "localtime"));
      (lit "current", JObj
        [ (lit "temperature", own current (lit "temperature"));
          (lit "temperatureUnit", JStr (lit "C"));
          (lit "weather", JStr (comma_join descriptions));
          (lit "weatherIcon", hd JUndefined icons);
          (lit "windSpeed", own current (lit "wind_speed"));
          (lit "windDirection", own current (lit "wind_dir"));
          (lit "humidity", own current (lit "humidity"));
          (lit "feelsLike", own current (lit "feelslike"));
          (lit "uvIndex", own current (lit "uv_index"));
          (lit "visibility", own current (lit "visibility"));
          (lit "precipitation", own current (lit "precip"));
          (lit "cloudCover", own current (lit "cloudcover"));
          (lit "pressure", own current (lit "pressure")) ]) ].

(** The member names of an object, in order. *)
Definition member_names (v : JsVal) : list jstring :=
  match v with JObj props => map fst props | _ => [] end.

(** The parameters of a [currentWeather] call carry no city: they are
    missing, neither a string nor an object, or the city taken from them
    is empty or missing. *)
Definition city_missing (params : JsVal) : Prop :=
  params = JUndefined
  \/ (is_object params = false /\ is_string_type params = false)
  \/ (exists city, JsonRpc.extract_city params = Normal city
                   /\ truthy city = false).

(** What the provider settles a request to, once the URL is built. *)
Definition provider_outcome (net : Network) (url : jstring) : Completion JsVal :=
  match net url with
  | Rejected e => Throw e
  | Answered response =>
      if negb response.(ok) then
        Throw (Error (lit "Weatherstack API error: " ++ response.(statusText)))
      else cbind response.(json) check_payload
  end.

(** Sample networks and requests for the worked examples. *)
Definition net_down : Network := fun _ => Rejected (HostError (lit "ECONNREFUSED")).

Definition net_answers (data : JsVal) : Network :=
  fun _ => Answered {| ok := true; statusText := lit "OK"; json := Normal data |}.

Definition request (id method params : JsVal) : JsVal :=
  JObj [ (lit "jsonrpc", JStr (lit "2.0")); (lit "id", id);
         (lit "method", method); (lit "params", params) ].

Definition london : JsVal :=
  JObj
    [ (lit "location", JObj [ (lit "name", JStr (lit "London"));
                              (lit "country", JStr (lit "United Kingdom")) ]);
      (lit "current", JObj
        [ (lit "temperature", JNum (lit "15"));
          (lit "weather_descriptions", JArr [ JStr (lit "Cloudy") ]);
          (lit "weather_icons", JArr [ JStr (lit "cloudy.png") ]);
          (lit "wind_speed", JNum (lit "10"));
          (lit "wind_dir", JStr (lit "NW"));
          (lit "humidity", JNum (lit "80"));
          (lit "feelslike", JNum (lit "14"));
          (lit "uv_index", JNum (lit "2"));
          (lit "visibility", JNum (lit "10"));
          (lit "precip", JNum (lit "0"));
          (lit "cloudcover", JNum (lit "75"));
          (lit "pressure", JNum (lit "1012")) ]) ].

End Spec.

(* ================================================================= *)
(** ** Vocabulary for the further properties *)

Module Facts.
Import Js Host Shared.

(** A code unit is a 16-bit number. *)
Definition code_units (s : jstring) : Prop := Forall (fun c => (c < 65536)%N) s.

(** The units [encodeURIComponent] can put out: the unreserved ones and the
    percent sign (the hexadecimal digits of an escape are unreserved). *)
Definition url_safe (c : code_unit) : bool := is_unreserved c || N.eqb c 37.

(** The members of a reply body, by name. *)
Definition member (v : JsVal) (k : jstring) : JsVal :=
  match v with JObj props => own props k | _ => JUndefined end.

(** Strings joined with a separator. *)
Fixpoint text_join (sep : jstring) (texts : list jstring) : jstring :=
  match texts with
  | [] => []
  | [t] => t
  | t :: rest => t ++ sep ++ text_join sep rest
  end.

(** [undefined] or [null] *)
Definition is_nullish (v : JsVal) : bool :=
  match v with JUndefined | JNull => true | _ => false end.

(** The payload a lookup ends in, in either variant: the normalized
    output when the client and the normalization both succeed, the sentinel
    otherwise. *)
Definition lookup_result (key : jstring) (net : Network) (city : JsVal) : JsVal :=
  match outcome (Simple.fetchWeatherData key net city) with
  | Normal data =>
      match weather_result data with
      | Normal result => result
      | Throw _ => UnavailableResult
      end
  | Throw _ => UnavailableResult
  end.

(** The error code of a rejection envelope. *)
Definition error_code (v : JsVal) : JsVal := member (member v (lit "error")) (lit "code").

End Facts.

(* ================================================================= *)
(** ** The command line of the plain source, and the launcher *)

Module Cli.
Import Js Host Shared.

(** [console.log] writes to the first stream, [console.warn] and
    [console.error] to the second. *)
Inductive Stream : Type := Out | Err.

Definition Line : Type := (Stream * jstring)%type.

(** How a run of a script ends: [process.exit(code)], an uncaught error,
    the end of the script with nothing left to wait for, or a listening
    server. *)
Inductive Ending : Type :=
| Exit (code : N)
| Crashed (e : JsError)
| Done
| Serving (port : JsVal).

Record Run : Type :=
  run { printed : list Line; asked : list jstring; ending : Ending }.

(** [hay.includes(needle)] on strings. *)
Fixpoint starts_with (needle hay : jstring) : bool :=
  match needle, hay with
  | [], _ => true
  | n :: ns, h :: hs => N.eqb n h && starts_with ns hs
  | _ :: _, [] => false
  end.

Fixpoint includes_text (needle hay : jstring) : bool :=
  starts_with needle hay
  || match hay with
     | [] => false
     | _ :: rest => includes_text needle rest
     end.

(** [process.env.PORT || 3000] *)
Definition port (env_port : option jstring) : JsVal :=
  match env_port with
  | Some s => js_or (JStr s) (JNum (lit "3000"))
  | None => JNum (lit "3000")
  end.

(** [startServer(customPort)] listens on [customPort || port]. *)
Definition startServer (env_port : option jstring) (customPort : JsVal) : JsVal :=
  js_or customPort (port env_port).

(** The four lines of the start-up warning. *)
Definition warning : list Line :=
  [ (Err, [10; 9888; 65039]%N
          ++ lit "  Warning: Using the default Weatherstack API key");
    (Err, lit "This key has limited usage and is for demonstration purposes only.");
    (Err, lit "For production use, please set your own API key:");
    (Err, lit "export WEATHERSTACK_API_KEY=" ++ [quote]
          ++ lit "your_api_key_here" ++ [quote; 10%N]) ].

(** [`${data.a.b}`] *)
Definition show (data : JsVal) (a b : jstring) : Completion jstring :=
  let! v := path data a b in ToString v.

(** The lines of the report, each as its template evaluates. *)
Definition report (data : JsVal) : list (Completion jstring) :=
  [ (let! name := show data (lit "location") (lit "name") in
     let! country := show data (lit "location") (lit "country") in
     Normal ([10%N] ++ lit "Current Weather for " ++ name ++ lit ", " ++ country));
    Normal (repeat 61%N 50);
    (let! localtime := show data (lit "location") (lit "localtime") in
     Normal (lit "Date & Time: " ++ localtime));
    (let! temperature := show data (lit "current") (lit "temperature") in
     let! feelslike := show data (lit "current") (lit "feelslike") in
     Normal (lit "Temperature: " ++ temperature ++ [176%N] ++ lit "C (Feels like: "
             ++ feelslike ++ [176%N] ++ lit "C)"));
    (let! descriptions := path data (lit "current") (lit "weather_descriptions") in
     let! weather := join descriptions (lit ", ") in
     Normal (lit "Weather: " ++ weather));
    (let! speed := show data (lit "current") (lit "wind_speed") in
     let! direction := show data (lit "current") (lit "wind_dir") in
     Normal (lit "Wind: " ++ speed ++ lit " km/h " ++ direction));
    (let! humidity := show data (lit "current") (lit "humidity") in
     Normal (lit "Humidity: " ++ humidity ++ lit "%"));
    (let! visibility := show data (lit "current") (lit "visibility") in
     Normal (lit "Visibility: " ++ visibility ++ lit " km"));
    (let! pressure := show data (lit "current") (lit "pressure") in
     Normal (lit "Pressure: " ++ pressure ++ lit " mb"));
    (let! uv := show data (lit "current") (lit "uv_index") in
     Normal (lit "UV Index: " ++ uv));
    Normal ([10%N] ++ lit "Data source: Weatherstack API") ].

(** The lines go out one by one; the first that raises stops the report. *)
Fixpoint print_lines (lines : list (Completion jstring))
  : list Line * option JsError :=
  match lines with
  | [] => ([], None)
  | Normal text :: rest =>
      let (out, fault) := print_lines rest in ((Out, text) :: out, fault)
  | Throw e :: _ => ([], Some e)
  end.

Section Script.
(** The wording of the errors the engine raises is the engine's. *)
Variable type_error_text : jstring.
Variable uri_error_text : jstring.
Variable net : Network.

(** [error.message] *)
Definition message (e : JsError) : jstring :=
  match e with
  | Error m | HostError m => m
  | TypeError => type_error_text
  | URIError => uri_error_text
  end.

(** The [catch] of the lookup. *)
Definition on_error (e : JsError) : list Line :=
  if includes_text (lit "API key") (message e) then
    [ (Err, [10; 10060]%N ++ lit " API Key Error: " ++ message e);
      (Out, lit "Please set your Weatherstack API key using:");
      (Out, lit "export WEATHERSTACK_API_KEY=" ++ [quote]
            ++ lit "your_api_key_here" ++ [quote]) ]
  else [ (Out, [10%N] ++ lit "Weather data is not available") ].

(** [node src/index.js weather <words>] *)
Definition weather_command (key : jstring) (words : list jstring) : Run :=
  match join (JArr (map JStr words)) (lit " ") with
  | Throw e => run [] [] (Crashed e)
  | Normal cityArg =>
      if negb (truthy (JStr cityArg)) then
        run [ (Out, lit "Please provide a city name. Example: node src/index.js weather 'New York'") ]
            [] (Exit 1)
      else
        let fetching :=
          (Out, lit "Fetching weather data for " ++ cityArg ++ lit "...") in
        match Simple.fetchWeatherData key net (JStr cityArg) with
        | (urls, Normal data) =>
            let (lines, fault) := print_lines (report data) in
            run (fetching :: lines
                 ++ match fault with Some e => on_error e | None => [] end)
                urls Done
        | (urls, Throw e) => run (fetching :: on_error e) urls Done
        end
  end.

(** The server once it listens. *)
Definition serve (env_port : option jstring) : Run :=
  let shown := match ToString (port env_port) with
               | Normal text => text
               | Throw _ => []
               end in
  run [ (Out, lit "Weather MCP server running at http://localhost:" ++ shown);
        (Out, lit "Server capabilities available at: http://localhost:"
              ++ shown ++ lit "/mcp");
        (Out, [10%N] ++ lit "Quick usage: node src/index.js weather "
              ++ [quote] ++ lit "city name" ++ [quote]) ]
      [] (Serving (port env_port)).

(** The module run from its first line: [is_main] says whether it is the
    script [node] was started with ([require.main === module]); [args] are
    the command-line arguments after the script name. *)
Definition index_js (is_main : bool) (env_key env_port : option jstring)
    (args : list jstring) : Run :=
  let key := WEATHERSTACK_API_KEY env_key in
  let warned :=
    if jstring_eqb key DEFAULT_API_KEY && is_main then warning else [] in
  if is_main then
    let body :=
      match args with
      | first :: words =>
          if jstring_eqb first (lit "weather") then weather_command key words
          else serve env_port
      | [] => serve env_port
      end in
    run (warned ++ body.(printed)) body.(asked) body.(ending)
  else run warned [] Done.

(** [bin/cli.js]: the usage without arguments, else the arguments are
    joined into one city, put behind the word [weather], and the module is
    loaded with [require]. *)
Definition bin_cli (env_key env_port : option jstring) (args : list jstring) : Run :=
  match args with
  | [] =>
      run [ (Out, lit "Weather MCP - A weather information tool using the Model Context Protocol");
            (Out, [10%N] ++ lit "Usage:");
            (Out, lit "  weather-mcp <city>");
            (Out, [10%N] ++ lit "Examples:");
            (Out, lit "  weather-mcp " ++ [quote] ++ lit "New York" ++ [quote]);
            (Out, lit "  weather-mcp London") ]
          [] (Exit 0)
  | _ :: _ =>
      match join (JArr (map JStr args)) (lit " ") with
      | Throw e => run [] [] (Crashed e)
      | Normal cityName =>
          index_js false env_key env_port [ lit "weather"; cityName ]
      end
  end.

End Script.
End Cli.

(* ================================================================= *)
(** ** Strings and the monad: basic facts *)

Import Js Host Shared Spec Facts.

Lemma jstring_eqb_refl (s : jstring) : jstring_eqb s s = true.
Proof.
  induction s as [|c s IH]; simpl; [reflexivity|].
  now rewrite N.eqb_refl, IH.
Qed.

Lemma jstring_eqb_eq (a b : jstring) : jstring_eqb a b = true <-> a = b.
Proof.
  split; [|intros ->; apply jstring_eqb_refl].
  revert b; induction a as [|x a IH]; intros [|y b]; simpl; try discriminate; auto.
  intros H; apply andb_true_iff in H as [Hx Hab].
  apply N.eqb_eq in Hx; subst; f_equal; auto.
Qed.

Lemma bind_lift_normal {A B} (a : A) (k : A -> IO B) :
  bind (lift (Normal a)) k = k a.
Proof. unfold bind, lift; now destruct (k a). Qed.

Lemma bind_lift_throw {A B} (e : JsError) (k : A -> IO B) :
  bind (lift (Throw e)) k = throw e.
Proof. reflexivity. Qed.

Lemma bind_ret {A B} (a : A) (k : A -> IO B) : bind (ret a) k = k a.
Proof. apply bind_lift_normal. Qed.

Lemma try_catch_rethrow {A} (m : IO A) : try_catch m (fun e => throw e) = m.
Proof.
  destruct m as [t [a|e]]; simpl; [reflexivity|].
  now rewrite app_nil_r.
Qed.

Lemma try_catch_total {A} (m : IO A) (h : JsError -> A) :
  exists a, outcome (try_catch m (fun e => ret (h e))) = Normal a.
Proof. destruct m as [t [a|e]]; simpl; eauto. Qed.

Create Rewrite HintDb io.
#[export] Hint Rewrite @bind_lift_normal @bind_lift_throw @bind_ret
  @try_catch_rethrow : io.

(* ================================================================= *)
(** ** Trimming *)

Lemma trim_start_app (s w : jstring) :
  trim_start (s ++ w)
  = if forallb is_whitespace s then trim_start w else trim_start s ++ w.
Proof.
  induction s as [|c s IH]; simpl; [reflexivity|].
  destruct (is_whitespace c); simpl; [exact IH|reflexivity].
Qed.

Lemma trim_start_blank (s : jstring) :
  forallb is_whitespace s = true -> trim_start s = [].
Proof.
  induction s as [|c s IH]; simpl; [reflexivity|].
  destruct (is_whitespace c); simpl; [exact IH|discriminate].
Qed.

Lemma forallb_rev {A} (f : A -> bool) (l : list A) :
  forallb f (rev l) = forallb f l.
Proof.
  induction l as [|x l IH]; simpl; [reflexivity|].
  rewrite forallb_app, IH; simpl.
  now rewrite andb_true_r, andb_comm.
Qed.

Lemma trim_string_padded (left_pad s right_pad : jstring) :
  forallb is_whitespace left_pad = true ->
  forallb is_whitespace right_pad = true ->
  trim_string (left_pad ++ s ++ right_pad) = trim_string s.
Proof.
  intros Hl Hr; unfold trim_string.
  rewrite trim_start_app, Hl, trim_start_app.
  destruct (forallb is_whitespace s) eqn:Hs.
  - now rewrite (trim_start_blank _ Hr), (trim_start_blank _ Hs).
  - rewrite rev_app_distr, trim_start_app, forallb_rev, Hr.
    reflexivity.
Qed.

(* ================================================================= *)
(** ** The provider client *)

Section Provider.
Variable key : jstring.
Variable net : Network.

(** The two sources hold the same client: the extra [try]/[catch] of the
    JSON-RPC one rethrows what it caught. *)
Lemma fetchWeatherData_variants (city : JsVal) :
  JsonRpc.fetchWeatherData key net city = Simple.fetchWeatherData key net city.
Proof.
  unfold JsonRpc.fetchWeatherData, Simple.fetchWeatherData.
  destruct (negb (truthy city)); [reflexivity|].
  destruct (negb (truthy (isValidApiKey key))); [reflexivity|].
  destruct (trim city) as [n|e]; [|reflexivity].
  rewrite !bind_lift_normal.
  destruct (encodeURIComponent n) as [q|e]; [|reflexivity].
  rewrite !bind_lift_normal.
  apply try_catch_rethrow.
Qed.

(** The client in closed form. *)
Lemma fetchWeatherData_unfold (city : JsVal) :
  Simple.fetchWeatherData key net city =
  if negb (truthy city) then ([], Throw city_required)
  else if negb (truthy (isValidApiKey key)) then ([], Throw key_required)
  else match trim city with
       | Throw e => ([], Throw e)
       | Normal normalizedCity =>
           match encodeURIComponent normalizedCity with
           | Throw e => ([], Throw e)
           | Normal query =>
               ([api_url key query],
                provider_outcome net (api_url key query))
           end
       end.
Proof.
  unfold Simple.fetchWeatherData.
  destruct (negb (truthy city)); [reflexivity|].
  destruct (negb (truthy (isValidApiKey key))); [reflexivity|].
  destruct (trim city) as [n|e]; [|reflexivity].
  rewrite bind_lift_normal.
  destruct (encodeURIComponent n) as [q|e]; [|reflexivity].
  rewrite bind_lift_normal.
  unfold provider_outcome, fetch, bind.
  destruct (net (api_url key q)) as [e|[o st js]]; simpl; [reflexivity|].
  destruct o; simpl; [|reflexivity].
  destruct js as [data|e]; simpl; reflexivity.
Qed.

(** Only a string can be looked up. *)
Lemma fetchWeatherData_success_string (city data : JsVal) :
  outcome (Simple.fetchWeatherData key net city) = Normal data ->
  exists s, city = JStr s.
Proof.
  rewrite fetchWeatherData_unfold.
  destruct (truthy city); simpl; [|discriminate].
  destruct (truthy (isValidApiKey key)); simpl; [|discriminate].
  destruct city; simpl; try discriminate; eauto.
Qed.
End Provider.

(** The credential the module computes from the environment is never
    empty: an unset or empty variable falls back to the built-in key. *)
Lemma WEATHERSTACK_API_KEY_valid (env : option jstring) :
  isValidApiKey (WEATHERSTACK_API_KEY env) = JBool true.
Proof.
  destruct env as [[|c s]|]; reflexivity.
Qed.

(* ================================================================= *)
(** ** Claims about the provider client *)

(** C3 (as amended).  [fetchWeatherData] fails with InvalidInput for every
    city that is empty or absent as it is given, whatever the credential
    and without any request; the city is trimmed only after both checks
    have passed, when the request URL is built from it. *)
Theorem c3_absent_city_fails_first (key : jstring) (net : Network) :
  (forall city, truthy city = false ->
     JsonRpc.fetchWeatherData key net city = ([], Throw InvalidInput)
     /\ Simple.fetchWeatherData key net city = ([], Throw InvalidInput))
  /\ (forall s query, s <> [] -> truthy (isValidApiKey key) = true ->
        encodeURIComponent (trim_string s) = Normal query ->
        requests (JsonRpc.fetchWeatherData key net (JStr s)) = [api_url key query]
        /\ requests (Simple.fetchWeatherData key net (JStr s)) = [api_url key query]).
Proof.
  split.
  - intros city Hcity.
    rewrite fetchWeatherData_variants, fetchWeatherData_unfold, Hcity.
    now split.
  - intros s query Hs Hkey Henc.
    rewrite fetchWeatherData_variants, fetchWeatherData_unfold, Hkey.
    destruct s as [|c s]; [contradiction|].
    cbn [truthy negb trim]. rewrite Henc. now split.
Qed.

Lemma c3_absent_city_fails_first_witness :
  JsonRpc.fetchWeatherData [] net_down (JStr []) = ([], Throw InvalidInput)
  /\ Simple.fetchWeatherData [] net_down (JStr []) = ([], Throw InvalidInput).
Proof.
  apply (proj1 (c3_absent_city_fails_first [] net_down) (JStr [])).
  reflexivity.
Defined.

(** C3 (counterexample).  A city of three spaces is empty after trimming,
    yet the call is not refused: it asks the provider for an empty query
    and returns what the provider answers. *)
Lemma c3_blank_city_is_requested :
  trim (JStr (lit "   ")) = Normal []
  /\ JsonRpc.fetchWeatherData DEFAULT_API_KEY (net_answers london) (JStr (lit "   "))
     = ([api_url DEFAULT_API_KEY []], Normal london)
  /\ Simple.fetchWeatherData DEFAULT_API_KEY (net_answers london) (JStr (lit "   "))
     = ([api_url DEFAULT_API_KEY []], Normal london)
  /\ outcome (JsonRpc.fetchWeatherData DEFAULT_API_KEY (net_answers london)
                (JStr (lit "   "))) <> Throw InvalidInput.
Proof.
  repeat split; try reflexivity.
  vm_compute; discriminate.
Qed.

(** C5.  With an empty credential, a call that names a city fails with
    CredentialMissing and no request has been issued. *)
Theorem c5_empty_credential_fails_before_network (net : Network) (city : JsVal) :
  truthy city = true ->
  JsonRpc.fetchWeatherData [] net city = ([], Throw CredentialMissing)
  /\ Simple.fetchWeatherData [] net city = ([], Throw CredentialMissing).
Proof.
  intros Hcity.
  rewrite fetchWeatherData_variants, fetchWeatherData_unfold, Hcity.
  now split.
Qed.

Lemma c5_empty_credential_fails_before_network_witness :
  JsonRpc.fetchWeatherData [] (net_answers london) (JStr (lit "London"))
  = ([], Throw CredentialMissing)
  /\ Simple.fetchWeatherData [] (net_answers london) (JStr (lit "London"))
     = ([], Throw CredentialMissing).
Proof.
  apply c5_empty_credential_fails_before_network.
  reflexivity.
Defined.

(** With an empty credential no call reaches the network, whatever the city. *)
Lemma empty_credential_no_request (net : Network) (city : JsVal) :
  requests (Simple.fetchWeatherData [] net city) = [].
Proof.
  rewrite fetchWeatherData_unfold.
  destruct (truthy city); reflexivity.
Qed.

(** C9.  [getWeatherForCity] completes normally for every city and every
    provider outcome: with the fetched data when the fetch succeeds, with
    the sentinel [{status: "not available", message: "Weather data is
    currently not available"}] when it fails, in both sources. *)
Theorem c9_getWeatherForCity_always_succeeds
    (key : jstring) (net : Network) (city : JsVal) :
  (exists v, outcome (JsonRpc.getWeatherForCity key net city) = Normal v)
  /\ (exists v, outcome (Simple.getWeatherForCity key net city) = Normal v)
  /\ (forall data,
        outcome (JsonRpc.fetchWeatherData key net city) = Normal data ->
        outcome (JsonRpc.getWeatherForCity key net city) = Normal data)
  /\ (forall data,
        outcome (Simple.fetchWeatherData key net city) = Normal data ->
        outcome (Simple.getWeatherForCity key net city) = Normal data)
  /\ (forall e,
        outcome (JsonRpc.fetchWeatherData key net city) = Throw e ->
        outcome (JsonRpc.getWeatherForCity key net city)
        = Normal (JObj
            [ (lit "status", JStr (lit "not available"));
              (lit "message",
               JStr (lit "Weather data is currently not available")) ]))
  /\ (forall e,
        outcome (Simple.fetchWeatherData key net city) = Throw e ->
        outcome (Simple.getWeatherForCity key net city)
        = Normal (JObj
            [ (lit "status", JStr (lit "not available"));
              (lit "message",
               JStr (lit "Weather data is currently not available")) ])).
Proof.
  unfold JsonRpc.getWeatherForCity, Simple.getWeatherForCity.
  repeat split;
    try apply (try_catch_total _ (fun _ => UnavailableResult)).
  - destruct (JsonRpc.fetchWeatherData key net city) as [t [a|e]];
      simpl; intros data H; now inversion H.
  - destruct (Simple.fetchWeatherData key net city) as [t [a|e]];
      simpl; intros data H; now inversion H.
  - destruct (JsonRpc.fetchWeatherData key net city) as [t [a|e']];
      simpl; intros e H; now inversion H.
  - destruct (Simple.fetchWeatherData key net city) as [t [a|e']];
      simpl; intros e H; now inversion H.
Qed.

Lemma c9_getWeatherForCity_always_succeeds_witness :
  outcome (JsonRpc.getWeatherForCity DEFAULT_API_KEY net_down (JStr (lit "London")))
  = Normal (JObj
      [ (lit "status", JStr (lit "not available"));
        (lit "message", JStr (lit "Weather data is currently not available")) ]).
Proof.
  apply (proj1 (proj2 (proj2 (proj2 (proj2
    (c9_getWeatherForCity_always_succeeds DEFAULT_API_KEY net_down
       (JStr (lit "London")))))))
    (HostError (lit "ECONNREFUSED"))).
  reflexivity.
Defined.

(** C10.  For a non-empty city, padding it with whitespace on either side
    changes nothing of the call: the same requests, the same completion;
    and the URL requested is built from the trimmed, URL-encoded city. *)
Theorem c10_request_ignores_surrounding_whitespace
    (key : jstring) (net : Network) (city left_pad right_pad : jstring) :
  city <> [] ->
  forallb is_whitespace left_pad = true ->
  forallb is_whitespace right_pad = true ->
  JsonRpc.fetchWeatherData key net (JStr (left_pad ++ city ++ right_pad))
  = JsonRpc.fetchWeatherData key net (JStr city)
  /\ Simple.fetchWeatherData key net (JStr (left_pad ++ city ++ right_pad))
     = Simple.fetchWeatherData key net (JStr city)
  /\ (forall query,
        truthy (isValidApiKey key) = true ->
        encodeURIComponent (trim_string city) = Normal query ->
        requests (JsonRpc.fetchWeatherData key net
                    (JStr (left_pad ++ city ++ right_pad)))
        = [api_url key query]
        /\ requests (Simple.fetchWeatherData key net
                       (JStr (left_pad ++ city ++ right_pad)))
           = [api_url key query]).
Proof.
  intros Hcity Hl Hr.
  assert (Hpad : truthy (JStr (left_pad ++ city ++ right_pad)) = true).
  { destruct left_pad; [destruct city; [contradiction|]|]; reflexivity. }
  assert (Hc : truthy (JStr city) = true).
  { destruct city; [contradiction|reflexivity]. }
  assert (Heq : Simple.fetchWeatherData key net
                  (JStr (left_pad ++ city ++ right_pad))
                = Simple.fetchWeatherData key net (JStr city)).
  { rewrite !fetchWeatherData_unfold, Hpad, Hc.
    cbn [trim]. now rewrite trim_string_padded. }
  rewrite !fetchWeatherData_variants.
  split; [exact Heq|split; [exact Heq|]].
  intros query Hkey Henc.
  rewrite Heq, fetchWeatherData_unfold, Hc, Hkey.
  cbn [negb trim]. rewrite Henc. now split.
Qed.

Lemma c10_request_ignores_surrounding_whitespace_witness :
  JsonRpc.fetchWeatherData DEFAULT_API_KEY net_down
    (JStr (lit "  " ++ lit "New York" ++ [9%N; 10%N]))
  = JsonRpc.fetchWeatherData DEFAULT_API_KEY net_down (JStr (lit "New York")).
Proof.
  apply (c10_request_ignores_surrounding_whitespace DEFAULT_API_KEY net_down
           (lit "New York") (lit "  ") [9%N; 10%N]).
  - discriminate.
  - reflexivity.
  - reflexivity.
Defined.

(* ================================================================= *)
(** ** Method resolution *)

Lemma split_string_first (s : jstring) :
  split_string dot s
  = match split_first s with
    | Some (a, rest) => a :: split_string dot rest
    | None => [s]
    end.
Proof.
  induction s as [|c s IH]; [reflexivity|].
  cbn [split_string split_first].
  destruct (N.eqb c dot); [reflexivity|].
  rewrite IH. now destruct (split_first s) as [[a rest]|].
Qed.

Lemma includes_first (s : jstring) :
  existsb (N.eqb dot) s
  = match split_first s with Some _ => true | None => false end.
Proof.
  induction s as [|c s IH]; [reflexivity|].
  cbn [existsb split_first]. rewrite (N.eqb_sym dot c).
  destruct (N.eqb c dot); [reflexivity|].
  rewrite IH. now destruct (split_first s) as [[a rest]|].
Qed.

Lemma first_segment_head (s : jstring) :
  nth 0 (map JStr (split_string dot s)) JUndefined = JStr (first_segment s).
Proof.
  rewrite split_string_first. unfold first_segment.
  now destruct (split_first s) as [[a rest]|].
Qed.

Lemma resolve_method_string (s : jstring) :
  JsonRpc.resolve_method (JStr s)
  = Normal (JStr (fst (resolve_segments s)), JStr (snd (resolve_segments s))).
Proof.
  unfold JsonRpc.resolve_method, resolve_segments.
  cbn [includes_dot cbind split_dot].
  rewrite includes_first, split_string_first.
  destruct (split_first s) as [[a rest]|]; [|reflexivity].
  cbn [map nth fst snd]. now rewrite first_segment_head.
Qed.

Lemma count_dots_first (s a rest : jstring) :
  split_first s = Some (a, rest) -> count_dots s = S (count_dots rest).
Proof.
  unfold count_dots.
  revert a; induction s as [|c s IH]; intros a; [discriminate|].
  cbn [split_first filter]. rewrite (N.eqb_sym dot c).
  destruct (N.eqb c dot).
  - intros H; now inversion H.
  - destruct (split_first s) as [[a' rest']|]; [|discriminate].
    intros H; inversion H; subst. now apply (IH a').
Qed.

Lemma no_dots_no_split (s : jstring) :
  count_dots s = 0 -> split_first s = None.
Proof.
  destruct (split_first s) as [[a rest]|] eqn:H; [|reflexivity].
  rewrite (count_dots_first _ _ _ H). discriminate.
Qed.

(** C4 (as amended).  On a method string the handler takes the first two
    of the separator-delimited segments as tool and operation; that is the
    split on the first separator whenever the string holds at most one, and
    a string with none resolves to the tool [weather] and the whole string;
    [currentWeather] and [weather.currentWeather] resolve alike. *)
Theorem c4_method_resolution (s : jstring) :
  JsonRpc.resolve_method (JStr s)
  = Normal (JStr (fst (resolve_segments s)), JStr (snd (resolve_segments s)))
  /\ (count_dots s <= 1 -> resolve_segments s = resolve_spec s)
  /\ (count_dots s = 0 ->
      JsonRpc.resolve_method (JStr s) = Normal (JStr (lit "weather"), JStr s))
  /\ JsonRpc.resolve_method (JStr (lit "currentWeather"))
     = JsonRpc.resolve_method (JStr (lit "weather.currentWeather")).
Proof.
  split; [apply resolve_method_string|].
  split; [|split; [|reflexivity]].
  - intros Hle. unfold resolve_segments, resolve_spec.
    destruct (split_first s) as [[a rest]|] eqn:Hs; [|reflexivity].
    rewrite (count_dots_first _ _ _ Hs) in Hle.
    unfold first_segment. rewrite no_dots_no_split; [reflexivity|lia].
  - intros H0. rewrite resolve_method_string.
    unfold resolve_segments. now rewrite (no_dots_no_split _ H0).
Qed.

Lemma c4_method_resolution_witness :
  resolve_segments (lit "weather.currentWeather")
  = resolve_spec (lit "weather.currentWeather").
Proof.
  apply (proj1 (proj2 (c4_method_resolution (lit "weather.currentWeather")))).
  vm_compute. lia.
Defined.

(** C4 (counterexample).  With two separators the handler does not split
    on the first occurrence: the operation it resolves stops at the second
    separator, so this method is taken for [weather.currentWeather]. *)
Lemma c4_second_separator_cuts_operation :
  JsonRpc.resolve_method (JStr (lit "weather.currentWeather.v2"))
  = Normal (JStr (lit "weather"), JStr (lit "currentWeather"))
  /\ resolve_spec (lit "weather.currentWeather.v2")
     = (lit "weather", lit "currentWeather.v2")
  /\ JsonRpc.resolve_method (JStr (lit "weather.currentWeather.v2"))
     <> Normal (JStr (fst (resolve_spec (lit "weather.currentWeather.v2"))),
                JStr (snd (resolve_spec (lit "weather.currentWeather.v2")))).
Proof.
  repeat split; try reflexivity.
  vm_compute; discriminate.
Qed.

(* ================================================================= *)
(** ** The JSON-RPC handler, stage by stage *)

Ltac io_step := rewrite ?bind_lift_normal, ?bind_ret; cbv beta.

Lemma names_currentWeather_truthy (method : JsVal) :
  names_currentWeather method -> truthy method = true.
Proof.
  unfold names_currentWeather, JsonRpc.resolve_method.
  destruct method as [| |b|t|s|items|props]; cbn [includes_dot cbind];
    try discriminate.
  - destruct s; [|reflexivity].
    cbn [existsb]. intros H; inversion H.
  - reflexivity.
Qed.

Lemma extract_city_total (params : JsVal) :
  exists city, JsonRpc.extract_city params = Normal city.
Proof.
  destruct params; cbn; eauto.
Qed.

Section Handler.
Variable key : jstring.
Variable net : Network.

(** A well-formed envelope naming [currentWeather] reaches the operation. *)
Lemma post_dispatch (req_body id method params : JsVal) :
  envelope req_body id method params ->
  names_currentWeather method ->
  JsonRpc.post key net req_body = JsonRpc.currentWeather key net id params.
Proof.
  intros [Hv Hi Hm Hp] Hn.
  unfold JsonRpc.post.
  rewrite Hv; io_step. rewrite Hi; io_step.
  rewrite Hm; io_step. rewrite Hp; io_step.
  rewrite (names_currentWeather_truthy _ Hn).
  unfold names_currentWeather in Hn. rewrite Hn; io_step.
  replace (negb (truthy (JStr (lit "2.0")))
           || negb (is_string (JStr (lit "2.0")) (lit "2.0")))
    with false by reflexivity.
  cbn [negb ToString]; io_step.
  replace (is_string (JStr (lit "weather")) (lit "weather"))
    with true by reflexivity.
  replace (is_string (JStr (lit "currentWeather")) (lit "currentWeather"))
    with true by reflexivity.
  reflexivity.
Qed.

Lemma mcp_post_dispatch (req_body id method params : JsVal) :
  envelope req_body id method params ->
  names_currentWeather method ->
  JsonRpc.mcp key net (lit "POST") req_body
  = try_catch (JsonRpc.currentWeather key net id params)
              (fun _ => ret JsonRpc.internal_error).
Proof.
  intros He Hn. unfold JsonRpc.mcp.
  now rewrite <- (post_dispatch _ _ _ _ He Hn).
Qed.

(** The operation's own [catch] leaves nothing for the outer one. *)
Lemma currentWeather_total (id params : JsVal) :
  exists r, outcome (JsonRpc.currentWeather key net id params) = Normal r.
Proof.
  unfold JsonRpc.currentWeather.
  apply (try_catch_total _
           (fun _ => JsonRpc.reply 200 (JsonRpc.success id UnavailableResult))).
Qed.

Lemma outer_catch_idle (id params : JsVal) :
  try_catch (JsonRpc.currentWeather key net id params)
            (fun _ => ret JsonRpc.internal_error)
  = JsonRpc.currentWeather key net id params.
Proof.
  destruct (currentWeather_total id params) as [r Hr].
  destruct (JsonRpc.currentWeather key net id params) as [t [a|e]];
    [reflexivity|discriminate].
Qed.

Lemma currentWeather_rejects (id params city : JsVal) :
  JsonRpc.extract_city params = Normal city ->
  truthy city = false ->
  JsonRpc.currentWeather key net id params
  = ([], Normal (JsonRpc.reply 200
       (JsonRpc.rejection id (lit "-32602") (lit "Invalid params")
                          (lit "City parameter is required")))).
Proof.
  intros Hc Ht. unfold JsonRpc.currentWeather.
  rewrite Hc; io_step. now rewrite Ht.
Qed.

Lemma currentWeather_provider_fault (id params city : JsVal) (e : JsError) :
  JsonRpc.extract_city params = Normal city ->
  truthy city = true ->
  outcome (JsonRpc.fetchWeatherData key net city) = Throw e ->
  JsonRpc.currentWeather key net id params
  = (requests (JsonRpc.fetchWeatherData key net city),
     Normal (JsonRpc.reply 200 (JsonRpc.success id UnavailableResult))).
Proof.
  intros Hc Ht Hf. unfold JsonRpc.currentWeather.
  rewrite Hc; io_step. rewrite Ht; cbn [negb].
  destruct (JsonRpc.fetchWeatherData key net city) as [t [d|e']];
    [discriminate|].
  cbn. now rewrite app_nil_r.
Qed.

Lemma currentWeather_normalization_fault
    (id params city data : JsVal) (e : JsError) :
  JsonRpc.extract_city params = Normal city ->
  truthy city = true ->
  outcome (JsonRpc.fetchWeatherData key net city) = Normal data ->
  weather_result data = Throw e ->
  JsonRpc.currentWeather key net id params
  = (requests (JsonRpc.fetchWeatherData key net city),
     Normal (JsonRpc.reply 200 (JsonRpc.success id UnavailableResult))).
Proof.
  intros Hc Ht Hf Hw. unfold JsonRpc.currentWeather.
  rewrite Hc; io_step. rewrite Ht; cbn [negb].
  destruct (JsonRpc.fetchWeatherData key net city) as [t [d|e']];
    [|discriminate].
  cbn in Hf; inversion Hf; subst d.
  cbn [bind]. rewrite Hw. cbn. now rewrite !app_nil_r.
Qed.

Lemma currentWeather_success (id params city data result : JsVal) :
  JsonRpc.extract_city params = Normal city ->
  outcome (JsonRpc.fetchWeatherData key net city) = Normal data ->
  weather_result data = Normal result ->
  JsonRpc.currentWeather key net id params
  = (requests (JsonRpc.fetchWeatherData key net city),
     Normal (JsonRpc.reply 200 (JsonRpc.success id result))).
Proof.
  intros Hc Hf Hw. unfold JsonRpc.currentWeather.
  rewrite Hc; io_step.
  assert (Hs : exists s, city = JStr s).
  { apply (fetchWeatherData_success_string key net city data).
    now rewrite <- fetchWeatherData_variants. }
  destruct Hs as [s ->].
  assert (Ht : truthy (JStr s) = true).
  { destruct s; [|reflexivity].
    rewrite fetchWeatherData_variants, fetchWeatherData_unfold in Hf.
    discriminate. }
  rewrite Ht; cbn [negb].
  destruct (JsonRpc.fetchWeatherData key net (JStr s)) as [t [d|e']];
    [|discriminate].
  cbn in Hf; inversion Hf; subst d.
  cbn [bind]. rewrite Hw. cbn. now rewrite !app_nil_r.
Qed.
End Handler.

(* ================================================================= *)
(** ** The plain handler *)

Section PlainHandler.
Variable key : jstring.
Variable net : Network.

Lemma plain_provider_fault (req_body parameters city : JsVal) (e : JsError) :
  plain_call req_body parameters ->
  Get parameters (lit "city") = Normal city ->
  outcome (Simple.fetchWeatherData key net city) = Throw e ->
  Simple.mcp_post key net req_body
  = (requests (Simple.fetchWeatherData key net city),
     Normal (Simple.reply 200
               (Simple.Json (JObj [ (lit "result", UnavailableResult) ])))).
Proof.
  intros [Ht Ho Hp] Hc Hf. unfold Simple.mcp_post.
  rewrite Ht; io_step. rewrite Ho; io_step. rewrite Hp; io_step.
  replace (is_string (JStr (lit "weather")) (lit "weather"))
    with true by reflexivity.
  replace (is_string (JStr (lit "currentWeather")) (lit "currentWeather"))
    with true by reflexivity.
  cbn [negb]. rewrite Hc; io_step.
  destruct (Simple.fetchWeatherData key net city) as [t [d|e']];
    [discriminate|].
  cbn. now rewrite !app_nil_r.
Qed.

Lemma plain_success (req_body parameters city data result : JsVal) :
  plain_call req_body parameters ->
  Get parameters (lit "city") = Normal city ->
  outcome (Simple.fetchWeatherData key net city) = Normal data ->
  weather_result data = Normal result ->
  Simple.mcp_post key net req_body
  = (requests (Simple.fetchWeatherData key net city),
     Normal (Simple.reply 200 (Simple.Json (JObj [ (lit "result", result) ])))).
Proof.
  intros [Ht Ho Hp] Hc Hf Hw. unfold Simple.mcp_post.
  rewrite Ht; io_step. rewrite Ho; io_step. rewrite Hp; io_step.
  replace (is_string (JStr (lit "weather")) (lit "weather"))
    with true by reflexivity.
  replace (is_string (JStr (lit "currentWeather")) (lit "currentWeather"))
    with true by reflexivity.
  cbn [negb]. rewrite Hc; io_step.
  destruct (Simple.fetchWeatherData key net city) as [t [d|e']];
    [|discriminate].
  cbn in Hf; inversion Hf; subst d.
  cbn [bind]. rewrite Hw. cbn. now rewrite !app_nil_r.
Qed.
End PlainHandler.

(* ================================================================= *)
(** ** Normalization *)

Lemma join_strings (descriptions : list jstring) :
  join (JArr (map JStr descriptions)) (lit ", ")
  = Normal (comma_join descriptions).
Proof.
  cbn [join].
  induction descriptions as [|d rest IH]; [reflexivity|].
  cbn [map join_items piece ToString cbind].
  destruct rest as [|d' rest]; [reflexivity|].
  cbn [map] in *. rewrite IH. reflexivity.
Qed.

Lemma weather_result_well_formed (data : JsVal)
    (location current : list (jstring * JsVal))
    (descriptions : list jstring) (icons : list JsVal) :
  well_formed_payload data location current descriptions icons ->
  weather_result data
  = Normal (NormalizedWeather location current descriptions icons).
Proof.
  intros [Hl Hc Hd Hi].
  unfold weather_result, path.
  rewrite Hl, Hc. cbn [cbind Get].
  rewrite Hd, Hi, join_strings. cbn [cbind index0].
  unfold NormalizedWeather. now destruct icons.
Qed.

(* ================================================================= *)
(** ** Claims about the request handler *)

(** C1.  A [currentWeather] call with a well-formed envelope and a
    non-empty city whose provider call fails, for whatever reason, is
    answered with status 200 by a success envelope whose payload is exactly
    [{status: "not available", message: "Weather data is currently not
    available"}], and not by an error envelope; in both variants of the
    server. *)
Theorem c1_provider_failure_is_unavailable (key : jstring) (net : Network) :
  (forall req_body id method params city e,
     envelope req_body id method params ->
     names_currentWeather method ->
     JsonRpc.extract_city params = Normal city ->
     truthy city = true ->
     outcome (JsonRpc.fetchWeatherData key net city) = Throw e ->
     let payload :=
       JObj [ (lit "status", JStr (lit "not available"));
              (lit "message",
               JStr (lit "Weather data is currently not available")) ] in
     let body :=
       JObj [ (lit "jsonrpc", JStr (lit "2.0"));
              (lit "id", js_or id JNull);
              (lit "result", payload) ] in
     outcome (JsonRpc.mcp key net (lit "POST") req_body)
     = Normal (JsonRpc.reply 200 body)
     /\ Get body (lit "result") = Normal payload
     /\ is_success_envelope body = true
     /\ is_error_envelope body = false)
  /\ (forall req_body parameters city e,
        plain_call req_body parameters ->
        Get parameters (lit "city") = Normal city ->
        truthy city = true ->
        outcome (Simple.fetchWeatherData key net city) = Throw e ->
        let payload :=
          JObj [ (lit "status", JStr (lit "not available"));
                 (lit "message",
                  JStr (lit "Weather data is currently not available")) ] in
        outcome (Simple.mcp_post key net req_body)
        = Normal (Simple.reply 200
                    (Simple.Json (JObj [ (lit "result", payload) ])))
        /\ Get (JObj [ (lit "result", payload) ]) (lit "result")
           = Normal payload
        /\ is_success_envelope (JObj [ (lit "result", payload) ]) = true).
Proof.
  split.
  - intros req_body id method params city e He Hn Hc Ht Hf.
    rewrite (mcp_post_dispatch key net _ _ _ _ He Hn), outer_catch_idle.
    rewrite (currentWeather_provider_fault key net id params city e Hc Ht Hf).
    repeat split; reflexivity.
  - intros req_body parameters city e Hp Hc _ Hf.
    rewrite (plain_provider_fault key net _ _ _ e Hp Hc Hf).
    repeat split; reflexivity.
Qed.

Lemma c1_provider_failure_is_unavailable_witness :
  outcome (JsonRpc.mcp DEFAULT_API_KEY net_down (lit "POST")
             (request (JNum (lit "7")) (JStr (lit "weather.currentWeather"))
                      (JObj [ (lit "city", JStr (lit "London")) ])))
  = Normal (JsonRpc.reply 200
      (JObj [ (lit "jsonrpc", JStr (lit "2.0"));
              (lit "id", JNum (lit "7"));
              (lit "result", JObj
                [ (lit "status", JStr (lit "not available"));
                  (lit "message",
                   JStr (lit "Weather data is currently not available")) ]) ])).
Proof.
  apply (proj1 (c1_provider_failure_is_unavailable DEFAULT_API_KEY net_down)
           _ (JNum (lit "7")) (JStr (lit "weather.currentWeather"))
           (JObj [ (lit "city", JStr (lit "London")) ])
           (JStr (lit "London")) (HostError (lit "ECONNREFUSED"))).
  - split; reflexivity.
  - reflexivity.
  - reflexivity.
  - reflexivity.
  - reflexivity.
Defined.

(** C2.  When the provider call succeeds with a well-formed payload, the
    reply carries the normalized output of the fixed schema: its members
    are read from the payload's [location] and [current] by the fixed
    mapping, [temperatureUnit] is the constant ["C"], [weather] is the
    description list joined with a comma and a space, [weatherIcon] is the
    first icon; in both variants of the server. *)
Theorem c2_success_is_normalized (key : jstring) (net : Network) :
  (forall req_body id method params city data location current descriptions icons,
     envelope req_body id method params ->
     names_currentWeather method ->
     JsonRpc.extract_city params = Normal city ->
     outcome (JsonRpc.fetchWeatherData key net city) = Normal data ->
     well_formed_payload data location current descriptions icons ->
     let body :=
       JObj [ (lit "jsonrpc", JStr (lit "2.0"));
              (lit "id", js_or id JNull);
              (lit "result",
               NormalizedWeather location current descriptions icons) ] in
     outcome (JsonRpc.mcp key net (lit "POST") req_body)
     = Normal (JsonRpc.reply 200 body)
     /\ Get body (lit "result")
        = Normal (NormalizedWeather location current descriptions icons)
     /\ path body (lit "result") (lit "city")
        = Normal (own location (lit "name"))
     /\ cbind (path body (lit "result") (lit "current"))
              (fun c => Get c (lit "temperatureUnit"))
        = Normal (JStr (lit "C"))
     /\ cbind (path body (lit "result") (lit "current"))
              (fun c => Get c (lit "weather"))
        = Normal (JStr (comma_join descriptions))
     /\ is_success_envelope body = true)
  /\ (forall req_body parameters city data location current descriptions icons,
        plain_call req_body parameters ->
        Get parameters (lit "city") = Normal city ->
        outcome (Simple.fetchWeatherData key net city) = Normal data ->
        well_formed_payload data location current descriptions icons ->
        let body :=
          JObj [ (lit "result",
                  NormalizedWeather location current descriptions icons) ] in
        outcome (Simple.mcp_post key net req_body)
        = Normal (Simple.reply 200 (Simple.Json body))
        /\ Get body (lit "result")
           = Normal (NormalizedWeather location current descriptions icons)
        /\ cbind (path body (lit "result") (lit "current"))
                 (fun c => Get c (lit "temperatureUnit"))
           = Normal (JStr (lit "C"))
        /\ cbind (path body (lit "result") (lit "current"))
                 (fun c => Get c (lit "weather"))
           = Normal (JStr (comma_join descriptions)))
  /\ (forall location current descriptions icons,
        let output := NormalizedWeather location current descriptions icons in
        member_names output
        = [ lit "city"; lit "country"; lit "region"; lit "localtime";
            lit "current" ]
        /\ cbind (Get output (lit "current")) (fun c => Normal (member_names c))
           = Normal [ lit "temperature"; lit "temperatureUnit"; lit "weather";
                      lit "weatherIcon"; lit "windSpeed"; lit "windDirection";
                      lit "humidity"; lit "feelsLike"; lit "uvIndex";
                      lit "visibility"; lit "precipitation"; lit "cloudCover";
                      lit "pressure" ]
        /\ path output (lit "current") (lit "temperatureUnit")
           = Normal (JStr (lit "C"))
        /\ path output (lit "current") (lit "weather")
           = Normal (JStr (comma_join descriptions))
        /\ path output (lit "current") (lit "weatherIcon")
           = Normal (hd JUndefined icons)
        /\ Get output (lit "city") = Normal (own location (lit "name"))).
Proof.
  split; [|split; [|intros; repeat split; reflexivity]].
  - intros req_body id method params city data location current
      descriptions icons He Hn Hc Hf Hw.
    rewrite (mcp_post_dispatch key net _ _ _ _ He Hn), outer_catch_idle.
    rewrite (currentWeather_success key net id params city data _ Hc Hf
               (weather_result_well_formed _ _ _ _ _ Hw)).
    repeat split; reflexivity.
  - intros req_body parameters city data location current
      descriptions icons Hp Hc Hf Hw.
    rewrite (plain_success key net _ _ _ data _ Hp Hc Hf
               (weather_result_well_formed _ _ _ _ _ Hw)).
    repeat split; reflexivity.
Qed.

Lemma c2_success_is_normalized_witness :
  outcome (JsonRpc.mcp DEFAULT_API_KEY (net_answers london) (lit "POST")
             (request (JNum (lit "7")) (JStr (lit "currentWeather"))
                      (JStr (lit "London"))))
  = Normal (JsonRpc.reply 200
      (JObj
        [ (lit "jsonrpc", JStr (lit "2.0"));
          (lit "id", JNum (lit "7"));
          (lit "result", JObj
            [ (lit "city", JStr (lit "London"));
              (lit "country", JStr (lit "United Kingdom"));
              (lit "region", JUndefined);
              (lit "localtime", JUndefined);
              (lit "current", JObj
                [ (lit "temperature", JNum (lit "15"));
                  (lit "temperatureUnit", JStr (lit "C"));
                  (lit "weather", JStr (lit "Cloudy"));
                  (lit "weatherIcon", JStr (lit "cloudy.png"));
                  (lit "windSpeed", JNum (lit "10"));
                  (lit "windDirection", JStr (lit "NW"));
                  (lit "humidity", JNum (lit "80"));
                  (lit "feelsLike", JNum (lit "14"));
                  (lit "uvIndex", JNum (lit "2"));
                  (lit "visibility", JNum (lit "10"));
                  (lit "precipitation", JNum (lit "0"));
                  (lit "cloudCover", JNum (lit "75"));
                  (lit "pressure", JNum (lit "1012")) ]) ]) ])).
Proof.
  apply (proj1 (c2_success_is_normalized DEFAULT_API_KEY (net_answers london))
           _ (JNum (lit "7")) (JStr (lit "currentWeather"))
           (JStr (lit "London")) (JStr (lit "London")) london
           [ (lit "name", JStr (lit "London"));
             (lit "country", JStr (lit "United Kingdom")) ]
           [ (lit "temperature", JNum (lit "15"));
             (lit "weather_descriptions", JArr [ JStr (lit "Cloudy") ]);
             (lit "weather_icons", JArr [ JStr (lit "cloudy.png") ]);
             (lit "wind_speed", JNum (lit "10"));
             (lit "wind_dir", JStr (lit "NW"));
             (lit "humidity", JNum (lit "80"));
             (lit "feelslike", JNum (lit "14"));
             (lit "uv_index", JNum (lit "2"));
             (lit "visibility", JNum (lit "10"));
             (lit "precip", JNum (lit "0"));
             (lit "cloudcover", JNum (lit "75"));
             (lit "pressure", JNum (lit "1012")) ]
           [ lit "Cloudy" ] [ JStr (lit "cloudy.png") ]).
  - split; reflexivity.
  - reflexivity.
  - reflexivity.
  - reflexivity.
  - split; reflexivity.
Defined.

(** C6.  A [currentWeather] call whose parameters are missing, are neither
    a string nor an object, or yield an empty or missing city (as a plain
    string or as the [city] member of an object) is answered, without any
    request to the provider and without a fault, by the rejection with code
    -32602. *)
Theorem c6_missing_city_is_invalid_params
    (key : jstring) (net : Network) (req_body id method params : JsVal) :
  envelope req_body id method params ->
  names_currentWeather method ->
  city_missing params ->
  JsonRpc.mcp key net (lit "POST") req_body
  = ([], Normal (JsonRpc.reply 200
       (JsonRpc.rejection id (lit "-32602") (lit "Invalid params")
                          (lit "City parameter is required"))))
  /\ path (JsonRpc.rejection id (lit "-32602") (lit "Invalid params")
                             (lit "City parameter is required"))
          (lit "error") (lit "code")
     = Normal (JNum (lit "-32602")).
Proof.
  intros He Hn Hmiss. split; [|reflexivity].
  rewrite (mcp_post_dispatch key net _ _ _ _ He Hn), outer_catch_idle.
  assert (H : exists city, JsonRpc.extract_city params = Normal city
                           /\ truthy city = false).
  { destruct Hmiss as [-> | [[Ho Hs] | H]]; [| |exact H].
    - exists JUndefined. now split.
    - exists JUndefined. unfold JsonRpc.extract_city.
      rewrite Ho, Hs. now split. }
  destruct H as (city & Hc & Ht).
  apply (currentWeather_rejects key net id params city Hc Ht).
Qed.

Lemma c6_missing_city_is_invalid_params_witness :
  JsonRpc.mcp DEFAULT_API_KEY net_down (lit "POST")
    (request (JNum (lit "7")) (JStr (lit "currentWeather"))
             (JObj [ (lit "city", JStr []) ]))
  = ([], Normal (JsonRpc.reply 200
       (JsonRpc.rejection (JNum (lit "7")) (lit "-32602") (lit "Invalid params")
                          (lit "City parameter is required")))).
Proof.
  apply (c6_missing_city_is_invalid_params DEFAULT_API_KEY net_down
           _ (JNum (lit "7")) (JStr (lit "currentWeather"))
           (JObj [ (lit "city", JStr []) ])).
  - split; reflexivity.
  - reflexivity.
  - right; right. exists (JStr []). split; reflexivity.
Defined.

(** C7 (as amended).  No fault leaves the handler.  A fault raised while
    the envelope is read and checked or while the method is resolved is
    turned by the outer [catch] into the internal-error rejection (code
    -32603, status 500).  Parameter extraction raises nothing, and a fault
    raised by the provider call or by the normalization of its payload is
    turned by the operation's own [catch] into the success envelope that
    carries UnavailableResult. *)
Theorem c7_faults_are_contained (key : jstring) (net : Network) :
  (forall req_method req_body,
     exists r, outcome (JsonRpc.mcp key net req_method req_body) = Normal r)
  /\ (forall req_body e,
        outcome (JsonRpc.post key net req_body) = Throw e ->
        outcome (JsonRpc.mcp key net (lit "POST") req_body)
        = Normal JsonRpc.internal_error)
  /\ (forall req_body e,
        Get req_body (lit "jsonrpc") = Throw e ->
        JsonRpc.mcp key net (lit "POST") req_body
        = ([], Normal JsonRpc.internal_error))
  /\ (forall req_body id method params e,
        envelope req_body id method params ->
        truthy method = true ->
        JsonRpc.resolve_method method = Throw e ->
        JsonRpc.mcp key net (lit "POST") req_body
        = ([], Normal JsonRpc.internal_error))
  /\ (forall params, exists city, JsonRpc.extract_city params = Normal city)
  /\ (forall req_body id method params city e,
        envelope req_body id method params ->
        names_currentWeather method ->
        JsonRpc.extract_city params = Normal city ->
        truthy city = true ->
        outcome (JsonRpc.fetchWeatherData key net city) = Throw e ->
        outcome (JsonRpc.mcp key net (lit "POST") req_body)
        = Normal (JsonRpc.reply 200 (JsonRpc.success id UnavailableResult)))
  /\ (forall req_body id method params city data e,
        envelope req_body id method params ->
        names_currentWeather method ->
        JsonRpc.extract_city params = Normal city ->
        truthy city = true ->
        outcome (JsonRpc.fetchWeatherData key net city) = Normal data ->
        weather_result data = Throw e ->
        outcome (JsonRpc.mcp key net (lit "POST") req_body)
        = Normal (JsonRpc.reply 200 (JsonRpc.success id UnavailableResult))).
Proof.
  repeat apply conj.
  - intros req_method req_body. unfold JsonRpc.mcp.
    apply (try_catch_total _ (fun _ => JsonRpc.internal_error)).
  - intros req_body e H. unfold JsonRpc.mcp.
    replace (jstring_eqb (lit "POST") (lit "GET")) with false by reflexivity.
    replace (jstring_eqb (lit "POST") (lit "POST")) with true by reflexivity.
    destruct (JsonRpc.post key net req_body) as [t [r|e']]; [discriminate|].
    reflexivity.
  - intros req_body e H. unfold JsonRpc.mcp, JsonRpc.post.
    rewrite H. reflexivity.
  - intros req_body id method params e [Hv Hi Hm Hp] Ht Hr.
    unfold JsonRpc.mcp, JsonRpc.post.
    rewrite Hv; io_step. rewrite Hi; io_step.
    rewrite Hm; io_step. rewrite Hp; io_step.
    rewrite Ht, Hr. reflexivity.
  - apply extract_city_total.
  - intros req_body id method params city e He Hn Hc Ht Hf.
    rewrite (mcp_post_dispatch key net _ _ _ _ He Hn), outer_catch_idle.
    now rewrite (currentWeather_provider_fault key net id params city e Hc Ht Hf).
  - intros req_body id method params city data e He Hn Hc Ht Hf Hw.
    rewrite (mcp_post_dispatch key net _ _ _ _ He Hn), outer_catch_idle.
    now rewrite (currentWeather_normalization_fault
                   key net id params city data e Hc Ht Hf Hw).
Qed.

Lemma c7_faults_are_contained_witness :
  JsonRpc.mcp DEFAULT_API_KEY net_down (lit "POST")
    (request (JNum (lit "7")) (JNum (lit "5")) JUndefined)
  = ([], Normal JsonRpc.internal_error).
Proof.
  apply (proj1 (proj2 (proj2 (proj2
           (c7_faults_are_contained DEFAULT_API_KEY net_down))))
           _ (JNum (lit "7")) (JNum (lit "5")) JUndefined TypeError).
  - split; reflexivity.
  - reflexivity.
  - reflexivity.
Defined.

(** C7 (counterexample).  The provider answers with an empty object: the
    call succeeds, the normalization raises on the missing [location], and
    the handler answers with the UnavailableResult success envelope, not
    with the internal-error rejection. *)
Lemma c7_normalization_fault_is_not_internal_error :
  outcome (JsonRpc.fetchWeatherData DEFAULT_API_KEY (net_answers (JObj []))
             (JStr (lit "London")))
  = Normal (JObj [])
  /\ weather_result (JObj []) = Throw TypeError
  /\ outcome (JsonRpc.mcp DEFAULT_API_KEY (net_answers (JObj [])) (lit "POST")
                (request (JNum (lit "7")) (JStr (lit "currentWeather"))
                         (JStr (lit "London"))))
     = Normal (JsonRpc.reply 200
                 (JsonRpc.success (JNum (lit "7")) UnavailableResult))
  /\ JsonRpc.reply 200 (JsonRpc.success (JNum (lit "7")) UnavailableResult)
     <> JsonRpc.internal_error.
Proof.
  repeat split; try reflexivity.
  discriminate.
Qed.

(** What the operation replies is the invalid-params rejection or a
    success envelope, both built on the request's identifier. *)
Lemma currentWeather_reply (key : jstring) (net : Network) (id params : JsVal) :
  exists t b,
    JsonRpc.currentWeather key net id params = (t, Normal (JsonRpc.reply 200 b))
    /\ (b = JsonRpc.rejection id (lit "-32602") (lit "Invalid params")
                              (lit "City parameter is required")
        \/ exists result, b = JsonRpc.success id result).
Proof.
  unfold JsonRpc.currentWeather.
  destruct (extract_city_total params) as [city ->]; io_step.
  destruct (truthy city); cbn [negb];
    [|exists [], (JsonRpc.rejection id (lit "-32602") (lit "Invalid params")
                   (lit "City parameter is required")); split; [reflexivity|now left]].
  destruct (JsonRpc.fetchWeatherData key net city) as [t [data|e]];
    cbn [bind try_catch ret]; [|eauto 6].
  destruct (weather_result data) as [result|e]; cbn; [|eauto 6].
  destruct (ToString city) as [shown|e]; cbn; eauto 6.
Qed.

(** Every error envelope that the body of a [POST] replies with carries
    [id || null] for the identifier of the request. *)
Lemma post_rejections_carry_id (key : jstring) (net : Network)
    (req_body id : JsVal) (t : list jstring) (r : JsonRpc.Response) :
  Get req_body (lit "id") = Normal id ->
  JsonRpc.post key net req_body = (t, Normal r) ->
  is_error_envelope r.(JsonRpc.body) = true ->
  Get r.(JsonRpc.body) (lit "id") = Normal (js_or id JNull).
Proof.
  intros Hid. unfold JsonRpc.post. rewrite Hid.
  assert (Hget : forall k, exists v, Get req_body k = Normal v).
  { intros k. destruct req_body; try discriminate; cbn; eauto. }
  destruct (Hget (lit "jsonrpc")) as [jsonrpc ->].
  destruct (Hget (lit "method")) as [method ->].
  destruct (Hget (lit "params")) as [params ->].
  io_step.
  destruct (negb (truthy jsonrpc) || negb (is_string jsonrpc (lit "2.0"))).
  { destruct (ToString jsonrpc); [io_step|discriminate].
    intros H _; inversion H; reflexivity. }
  destruct (negb (truthy method)).
  { intros H _; inversion H; reflexivity. }
  destruct (JsonRpc.resolve_method method) as [[tool operation]|e];
    [io_step|discriminate].
  destruct (ToString tool) as [shown|e]; [io_step|discriminate].
  destruct (ToString operation) as [shown'|e]; [io_step|discriminate].
  destruct (negb (is_string tool (lit "weather"))).
  { intros H _; inversion H; reflexivity. }
  destruct (is_string operation (lit "currentWeather")).
  - destruct (currentWeather_reply key net id params)
      as (t' & b & -> & [-> | [result ->]]);
      intros H He; inversion H; subst; [reflexivity|discriminate].
  - intros H _; inversion H; reflexivity.
Qed.

(** A version marker that cannot be printed: the warning that reports it
    raises, and the request ends in the outer [catch]. *)
Lemma unprintable_version_is_internal_error (key : jstring) (net : Network) :
  JsonRpc.mcp key net (lit "POST")
    (JObj [ (lit "jsonrpc", JObj [ (lit "toString", JNum (lit "1")) ]);
            (lit "id", JNum (lit "7")) ])
  = ([], Normal JsonRpc.internal_error).
Proof. reflexivity. Qed.

(** An identifier that is truthy is echoed by a rejection envelope. *)
Lemma rejection_echoes_truthy_id (id : JsVal) (code message data : jstring) :
  truthy id = true ->
  Get (JsonRpc.rejection id code message data) (lit "id") = Normal id.
Proof.
  intros H. unfold JsonRpc.rejection, js_or. rewrite H. reflexivity.
Qed.

(** C8 (the code at the failing inputs).  A request with the identifier 0
    and an unknown operation is rejected with [id: null], the identifier
    having been taken for absent; and a request with the identifier 7
    whose method is a number is rejected by the outer [catch] with an
    envelope that has no [id] member at all. *)
Theorem c8_identifier_not_echoed (key : jstring) (net : Network) :
  JsonRpc.mcp key net (lit "POST")
    (JObj [ (lit "jsonrpc", JStr (lit "2.0")); (lit "id", JNum (lit "0"));
            (lit "method", JStr (lit "weather.forecast")) ])
  = ([], Normal (JsonRpc.reply 200
       (JObj [ (lit "jsonrpc", JStr (lit "2.0"));
               (lit "id", JNull);
               (lit "error", JObj
                 [ (lit "code", JNum (lit "-32601"));
                   (lit "message", JStr (lit "Method not found"));
                   (lit "data", JStr (lit "Unsupported operation: forecast")) ]) ])))
  /\ JsonRpc.mcp key net (lit "POST")
       (JObj [ (lit "jsonrpc", JStr (lit "2.0")); (lit "id", JNum (lit "7"));
               (lit "method", JNum (lit "5")) ])
     = ([], Normal (JsonRpc.reply 500
          (JObj [ (lit "jsonrpc", JStr (lit "2.0"));
                  (lit "error", JObj
                    [ (lit "code", JNum (lit "-32603"));
                      (lit "message", JStr (lit "Internal error"));
                      (lit "data", JStr (lit "An unexpected error occurred")) ]) ]))).
Proof.
  split; reflexivity.
Qed.

(* ================================================================= *)
(** ** Further properties of the provider client *)

Lemma hex_digit_safe (n : N) : (n < 16)%N -> is_unreserved (hex_digit n) = true.
Proof.
  intros H.
  assert (Hn : In n [0; 1; 2; 3; 4; 5; 6; 7; 8; 9; 10; 11; 12; 13; 14; 15]%N).
  { cbn. lia. }
  cbn in Hn.
  repeat (destruct Hn as [<- | Hn]; [reflexivity|]). contradiction.
Qed.

Lemma percent_safe (byte : N) :
  (byte < 256)%N -> forallb url_safe (percent byte) = true.
Proof.
  intros H. unfold percent, url_safe. cbn [forallb].
  rewrite (hex_digit_safe (byte / 16)), (hex_digit_safe (byte mod 16)).
  - reflexivity.
  - apply N.mod_lt. discriminate.
  - apply N.Div0.div_lt_upper_bound. exact H.
Qed.

Lemma utf8_bytes (cp : N) :
  (cp < 1114112)%N -> Forall (fun b => (b < 256)%N) (utf8 cp).
Proof.
  intros H. unfold utf8.
  destruct (N.ltb_spec cp 128); [repeat constructor; lia|].
  destruct (N.ltb_spec cp 2048).
  { assert (cp / 64 < 32)%N by (apply N.Div0.div_lt_upper_bound; lia).
    assert (cp mod 64 < 64)%N by (apply N.mod_lt; discriminate).
    repeat constructor; lia. }
  destruct (N.ltb_spec cp 65536).
  { assert (cp / 4096 < 16)%N by (apply N.Div0.div_lt_upper_bound; lia).
    assert ((cp / 64) mod 64 < 64)%N by (apply N.mod_lt; discriminate).
    assert (cp mod 64 < 64)%N by (apply N.mod_lt; discriminate).
    repeat constructor; lia. }
  assert (cp / 262144 < 5)%N by (apply N.Div0.div_lt_upper_bound; lia).
  assert ((cp / 4096) mod 64 < 64)%N by (apply N.mod_lt; discriminate).
  assert ((cp / 64) mod 64 < 64)%N by (apply N.mod_lt; discriminate).
  assert (cp mod 64 < 64)%N by (apply N.mod_lt; discriminate).
  repeat constructor; lia.
Qed.

Lemma escape_safe (cp : N) :
  (cp < 1114112)%N -> forallb url_safe (escape cp) = true.
Proof.
  intros H. unfold escape.
  induction (utf8_bytes cp H) as [|b bs Hb _ IH]; [reflexivity|].
  cbn [map List.concat]. rewrite forallb_app, IH, (percent_safe b Hb).
  reflexivity.
Qed.

Lemma between_spec (lo hi c : N) :
  between lo hi c = true <-> (lo <= c <= hi)%N.
Proof.
  unfold between. rewrite andb_true_iff, !N.leb_le. tauto.
Qed.

Lemma Normal_inj {A} (a b : A) : Normal a = Normal b -> a = b.
Proof. intros H. now inversion H. Qed.

Lemma encodeURIComponent_cons (c : code_unit) (rest : jstring) :
  encodeURIComponent (c :: rest)
  = if is_unreserved c then
      let! r := encodeURIComponent rest in Normal (c :: r)
    else if between 56320 57343 c then Throw URIError
    else if between 55296 56319 c then
      match rest with
      | d :: rest' =>
          if between 56320 57343 d then
            let! r := encodeURIComponent rest' in
            Normal (escape (65536 + (c - 55296) * 1024 + (d - 56320)) ++ r)
          else Throw URIError
      | [] => Throw URIError
      end
    else
      let! r := encodeURIComponent rest in Normal (escape c ++ r).
Proof. reflexivity. Qed.

Lemma encodeURIComponent_safe_bounded (n : nat) (s q : jstring) :
  List.length s <= n ->
  code_units s ->
  encodeURIComponent s = Normal q ->
  forallb url_safe q = true.
Proof.
  revert s q. induction n as [|n IH]; intros s q Hlen Hs.
  { destruct s; [|cbn in Hlen; lia]. intros H; inversion H; reflexivity. }
  destruct s as [|c rest]; [intros H; inversion H; reflexivity|].
  inversion Hs as [|? ? Hc Hrest]; subst.
  cbn [List.length] in Hlen. rewrite encodeURIComponent_cons.
  destruct (is_unreserved c) eqn:Hu.
  { destruct (encodeURIComponent rest) as [r|e] eqn:Hr; [|discriminate].
    cbn [cbind]. intros H; apply Normal_inj in H; subst q. cbn [forallb].
    unfold url_safe at 1. rewrite Hu. cbn [orb andb].
    apply (IH rest r); [lia|assumption|assumption]. }
  destruct (between 56320 57343 c); [discriminate|].
  destruct (between 55296 56319 c) eqn:Hhi.
  { destruct rest as [|d rest']; [discriminate|].
    destruct (between 56320 57343 d) eqn:Hlo; [|discriminate].
    inversion Hrest as [|? ? Hd Hrest']; subst.
    destruct (encodeURIComponent rest') as [r|e] eqn:Hr; [|discriminate].
    cbn [cbind]. intros H; apply Normal_inj in H; subst q.
    apply between_spec in Hhi. apply between_spec in Hlo.
    rewrite forallb_app, escape_safe by lia.
    cbn [List.length] in Hlen.
    apply (IH rest' r); [lia|assumption|assumption]. }
  destruct (encodeURIComponent rest) as [r|e] eqn:Hr; [|discriminate].
  cbn [cbind]. intros H; apply Normal_inj in H; subst q.
  rewrite forallb_app, escape_safe by lia.
  apply (IH rest r); [lia|assumption|assumption].
Qed.

Lemma encodeURIComponent_safe (s q : jstring) :
  code_units s ->
  encodeURIComponent s = Normal q ->
  forallb url_safe q = true.
Proof. apply (encodeURIComponent_safe_bounded (List.length s)); lia. Qed.

Lemma trim_start_units (s : jstring) : code_units s -> code_units (trim_start s).
Proof.
  unfold code_units. induction 1 as [|c s Hc Hs IH]; [constructor|].
  cbn. destruct (is_whitespace c); [exact IH|now constructor].
Qed.

Lemma trim_string_units (s : jstring) : code_units s -> code_units (trim_string s).
Proof.
  unfold trim_string, code_units. intros H.
  apply Forall_rev, trim_start_units, Forall_rev, trim_start_units, H.
Qed.

Lemma is_string_true (v : JsVal) (s : jstring) :
  is_string v s = true -> v = JStr s.
Proof.
  destruct v; cbn; try discriminate.
  intros H. apply jstring_eqb_eq in H. now subst.
Qed.

Lemma truthy_string (s : jstring) : truthy (JStr s) = true <-> s <> [].
Proof. destruct s; cbn; split; congruence. Qed.

Lemma valid_key (key : jstring) :
  truthy (isValidApiKey key) = true <-> key <> [].
Proof. destruct key; cbn; split; congruence. Qed.

(** What a call asks of the provider. *)
Lemma client_asks (key : jstring) (net : Network) (city : JsVal) :
  requests (Simple.fetchWeatherData key net city) = []
  \/ exists s query,
       city = JStr s /\ s <> [] /\ key <> []
       /\ encodeURIComponent (trim_string s) = Normal query
       /\ requests (Simple.fetchWeatherData key net city) = [api_url key query].
Proof.
  rewrite fetchWeatherData_unfold.
  destruct (truthy city) eqn:Ht; [|now left].
  destruct (truthy (isValidApiKey key)) eqn:Hk; [|now left].
  destruct city as [| |b|t|s|items|props]; try (now left).
  cbn [negb trim].
  destruct (encodeURIComponent (trim_string s)) as [query|e] eqn:He; [|now left].
  right. exists s, query.
  apply truthy_string in Ht. apply valid_key in Hk. auto.
Qed.

(** X1.  A call issues no request, or exactly one: for a city that is a
    non-empty string, to the URL built from the credential and the
    trimmed, encoded city.  Both sources ask for the same. *)
Theorem fetchWeatherData_requests (key : jstring) (net : Network) (city : JsVal) :
  requests (JsonRpc.fetchWeatherData key net city)
  = requests (Simple.fetchWeatherData key net city)
  /\ (requests (Simple.fetchWeatherData key net city) = []
      \/ exists s query,
           city = JStr s /\ s <> [] /\ key <> []
           /\ encodeURIComponent (trim_string s) = Normal query
           /\ requests (Simple.fetchWeatherData key net city)
              = [api_url key query]).
Proof.
  split.
  - now rewrite fetchWeatherData_variants.
  - destruct (client_asks key net city) as [H | (s & query & H)].
    + now left.
    + right. now exists s, query.
Qed.

(** X2.  Whatever the city, the query that reaches the provider holds only
    unreserved characters and percent escapes: no ampersand, equals sign,
    hash, question mark, slash or space of the city enters the URL. *)
Theorem query_is_escaped (key : jstring) (net : Network) (s : jstring) :
  code_units s ->
  requests (Simple.fetchWeatherData key net (JStr s)) = []
  \/ exists query,
       requests (Simple.fetchWeatherData key net (JStr s)) = [api_url key query]
       /\ forallb url_safe query = true
       /\ Forall (fun c => ~ In c [38; 61; 35; 63; 47; 32]%N) query.
Proof.
  intros Hs.
  destruct (client_asks key net (JStr s))
    as [H | (s' & query & Hc & _ & _ & He & Hr)]; [now left|].
  inversion Hc; subst s'. right. exists query.
  assert (Hsafe : forallb url_safe query = true).
  { apply (encodeURIComponent_safe (trim_string s));
      [now apply trim_string_units|exact He]. }
  repeat split; [exact Hr|exact Hsafe|].
  apply Forall_forall. intros c Hin Hbad.
  rewrite forallb_forall in Hsafe. specialize (Hsafe c Hin).
  cbn in Hbad.
  repeat (destruct Hbad as [<- | Hbad]; [discriminate|]). contradiction.
Qed.

Lemma query_is_escaped_witness :
  requests (Simple.fetchWeatherData DEFAULT_API_KEY net_down
              (JStr (lit "Paris&units=f"))) = []
  \/ exists query,
       requests (Simple.fetchWeatherData DEFAULT_API_KEY net_down
                   (JStr (lit "Paris&units=f")))
       = [api_url DEFAULT_API_KEY query]
       /\ forallb url_safe query = true
       /\ Forall (fun c => ~ In c [38; 61; 35; 63; 47; 32]%N) query.
Proof.
  apply (query_is_escaped DEFAULT_API_KEY net_down (lit "Paris&units=f")).
  unfold code_units. repeat constructor.
Defined.

(** What a successful call tells about its inputs. *)
Lemma client_success (key : jstring) (net : Network) (city data : JsVal) :
  outcome (Simple.fetchWeatherData key net city) = Normal data ->
  exists s query response err,
    city = JStr s /\ s <> [] /\ key <> []
    /\ encodeURIComponent (trim_string s) = Normal query
    /\ net (api_url key query) = Answered response
    /\ response.(ok) = true
    /\ response.(json) = Normal data
    /\ Get data (lit "error") = Normal err
    /\ truthy err = false.
Proof.
  rewrite fetchWeatherData_unfold.
  destruct (truthy city) eqn:Ht; [|discriminate].
  destruct (truthy (isValidApiKey key)) eqn:Hk; [|discriminate].
  destruct city as [| |b|t|s|items|props]; try discriminate.
  cbn [negb trim].
  destruct (encodeURIComponent (trim_string s)) as [query|e] eqn:He;
    [|discriminate].
  cbn [outcome snd]. unfold provider_outcome.
  destruct (net (api_url key query)) as [e|response] eqn:Hn; [discriminate|].
  destruct (ok response) eqn:Hok; [|discriminate].
  destruct (json response) as [body|e] eqn:Hj; [|discriminate].
  cbn [negb cbind]. unfold check_payload.
  destruct (Get body (lit "error")) as [err|e] eqn:Hg; [|discriminate].
  cbn [cbind].
  destruct (truthy err) eqn:Herr.
  - destruct (Get err (lit "code")) as [code|e]; [|discriminate].
    cbn [cbind].
    destruct (is_number code (lit "101") || is_number code (lit "102")
              || is_number code (lit "103"));
      destruct (Get err (lit "info")) as [info|e]; try discriminate;
      cbn [cbind]; destruct (ToString info); discriminate.
  - intros H. apply Normal_inj in H. subst body.
    exists s, query, response, err.
    apply truthy_string in Ht. apply valid_key in Hk. auto 10.
Qed.

(** X3.  The call succeeds exactly when the city is a non-empty string
    that can be encoded, the credential is not empty, and the provider
    answers the request with an [ok] status and a JSON body whose [error]
    member is missing or falsy; the body is then returned as it came. *)
Theorem fetchWeatherData_succeeds_iff
    (key : jstring) (net : Network) (city data : JsVal) :
  outcome (Simple.fetchWeatherData key net city) = Normal data
  <-> exists s query response err,
        city = JStr s /\ s <> [] /\ key <> []
        /\ encodeURIComponent (trim_string s) = Normal query
        /\ net (api_url key query) = Answered response
        /\ response.(ok) = true
        /\ response.(json) = Normal data
        /\ Get data (lit "error") = Normal err
        /\ truthy err = false.
Proof.
  split; [apply client_success|].
  intros (s & query & response & err & -> & Hs & Hk & He & Hn & Hok & Hj & Hg & Herr).
  rewrite fetchWeatherData_unfold.
  apply truthy_string in Hs. apply valid_key in Hk.
  rewrite Hs, Hk. cbn [negb trim]. rewrite He.
  cbn [outcome snd]. unfold provider_outcome.
  rewrite Hn, Hok, Hj. cbn [negb cbind]. unfold check_payload.
  rewrite Hg. cbn [cbind]. now rewrite Herr.
Qed.

Lemma fetchWeatherData_succeeds_iff_witness :
  outcome (Simple.fetchWeatherData DEFAULT_API_KEY (net_answers london)
             (JStr (lit " London ")))
  = Normal london.
Proof.
  apply (proj2 (fetchWeatherData_succeeds_iff DEFAULT_API_KEY
                  (net_answers london) (JStr (lit " London ")) london)).
  exists (lit " London "), (lit "London"),
    {| ok := true; statusText := lit "OK"; json := Normal london |}, JUndefined.
  repeat split; try reflexivity; discriminate.
Defined.

(** X4.  The credential the module computes from the environment is never
    empty, whatever the variable holds: the health reply always says the
    key is configured, and a lookup of an encodable non-empty city always
    reaches the provider, the missing-credential failure being out of
    reach. *)
Theorem own_credential_always_passes
    (env : option jstring) (net : Network) (s query : jstring) :
  JsonRpc.health (WEATHERSTACK_API_KEY env)
  = JsonRpc.reply 200 (JObj [ (lit "status", JStr (lit "healthy"));
                              (lit "apiKeyConfigured", JBool true) ])
  /\ (s <> [] ->
      encodeURIComponent (trim_string s) = Normal query ->
      requests (Simple.fetchWeatherData (WEATHERSTACK_API_KEY env) net (JStr s))
      = [api_url (WEATHERSTACK_API_KEY env) query]
      /\ requests (JsonRpc.fetchWeatherData (WEATHERSTACK_API_KEY env) net (JStr s))
         = [api_url (WEATHERSTACK_API_KEY env) query]).
Proof.
  split.
  - unfold JsonRpc.health. now rewrite WEATHERSTACK_API_KEY_valid.
  - intros Hs He.
    rewrite fetchWeatherData_variants, fetchWeatherData_unfold.
    apply truthy_string in Hs.
    rewrite Hs, WEATHERSTACK_API_KEY_valid. cbn [truthy negb trim].
    rewrite He. now split.
Qed.

Lemma own_credential_always_passes_witness :
  requests (Simple.fetchWeatherData (WEATHERSTACK_API_KEY (Some [])) net_down
              (JStr (lit "New York")))
  = [api_url DEFAULT_API_KEY (lit "New%20York")].
Proof.
  apply (proj2 (own_credential_always_passes (Some []) net_down
                  (lit "New York") (lit "New%20York"))).
  - discriminate.
  - reflexivity.
Defined.

Lemma unreserved_range (c : code_unit) :
  is_unreserved c = true -> (33 <= c <= 126)%N.
Proof.
  unfold is_unreserved. cbn [existsb].
  rewrite !orb_true_iff, !between_spec, !N.eqb_eq. lia.
Qed.

Lemma unreserved_not_whitespace (c : code_unit) :
  is_unreserved c = true -> is_whitespace c = false.
Proof.
  intros H. apply unreserved_range in H.
  destruct (is_whitespace c) eqn:E; [exfalso|reflexivity].
  unfold is_whitespace in E.
  rewrite !orb_true_iff, !andb_true_iff, !N.leb_le, !N.eqb_eq in E. lia.
Qed.

Lemma trim_start_unreserved (s : jstring) :
  forallb is_unreserved s = true -> trim_start s = s.
Proof.
  destruct s as [|c s]; [reflexivity|]. cbn.
  intros H. apply andb_true_iff in H as [Hc _].
  now rewrite (unreserved_not_whitespace c Hc).
Qed.

Lemma encodeURIComponent_unreserved (s : jstring) :
  forallb is_unreserved s = true -> encodeURIComponent s = Normal s.
Proof.
  induction s as [|c s IH]; [reflexivity|].
  cbn [forallb]. intros H. apply andb_true_iff in H as [Hc Hs].
  rewrite encodeURIComponent_cons, Hc, (IH Hs). reflexivity.
Qed.

(** X5.  A city written with unreserved characters only (letters, digits
    and [-_.!~*'()]) goes into the request URL as it is. *)
Theorem unreserved_city_sent_verbatim
    (key : jstring) (net : Network) (s : jstring) :
  s <> [] -> key <> [] ->
  forallb is_unreserved s = true ->
  requests (Simple.fetchWeatherData key net (JStr s)) = [api_url key s]
  /\ requests (JsonRpc.fetchWeatherData key net (JStr s)) = [api_url key s].
Proof.
  intros Hs Hk Hu.
  rewrite fetchWeatherData_variants, fetchWeatherData_unfold.
  apply truthy_string in Hs. apply valid_key in Hk.
  rewrite Hs, Hk. cbn [negb trim].
  assert (Htrim : trim_string s = s).
  { unfold trim_string. rewrite (trim_start_unreserved s Hu).
    rewrite trim_start_unreserved, rev_involutive;
      [reflexivity|now rewrite forallb_rev]. }
  rewrite Htrim, (encodeURIComponent_unreserved s Hu). now split.
Qed.

Lemma unreserved_city_sent_verbatim_witness :
  requests (Simple.fetchWeatherData DEFAULT_API_KEY net_down (JStr (lit "London")))
  = [api_url DEFAULT_API_KEY (lit "London")].
Proof.
  apply (unreserved_city_sent_verbatim DEFAULT_API_KEY net_down (lit "London")).
  - discriminate.
  - discriminate.
  - reflexivity.
Defined.

(* ================================================================= *)
(** ** Further properties of the JSON-RPC handler *)

Section Replies.
Variable key : jstring.
Variable net : Network.

(** What the operation does, case by case. *)
Lemma currentWeather_cases (id params : JsVal) :
  exists city,
    JsonRpc.extract_city params = Normal city
    /\ ((truthy city = false
         /\ JsonRpc.currentWeather key net id params
            = ([], Normal (JsonRpc.reply 200
                 (JsonRpc.rejection id (lit "-32602") (lit "Invalid params")
                                    (lit "City parameter is required")))))
        \/ (truthy city = true
            /\ exists result,
                 JsonRpc.currentWeather key net id params
                 = (requests (JsonRpc.fetchWeatherData key net city),
                    Normal (JsonRpc.reply 200 (JsonRpc.success id result)))
                 /\ (result = UnavailableResult
                     \/ exists data,
                          outcome (JsonRpc.fetchWeatherData key net city)
                          = Normal data
                          /\ weather_result data = Normal result))).
Proof.
  destruct (extract_city_total params) as [city Hc]. exists city.
  split; [exact Hc|].
  destruct (truthy city) eqn:Ht.
  - right. split; [reflexivity|].
    destruct (outcome (JsonRpc.fetchWeatherData key net city)) as [data|e] eqn:Hf.
    + destruct (weather_result data) as [result|e] eqn:Hw.
      * exists result. split; [|right; eauto].
        apply (currentWeather_success key net id params city data result Hc Hf Hw).
      * exists UnavailableResult. split; [|now left].
        apply (currentWeather_normalization_fault
                 key net id params city data e Hc Ht Hf Hw).
    + exists UnavailableResult. split; [|now left].
      apply (currentWeather_provider_fault key net id params city e Hc Ht Hf).
  - left. split; [reflexivity|].
    apply (currentWeather_rejects key net id params city Hc Ht).
Qed.

(** Every reply of the body of a [POST]: a rejection with one of three
    codes and no request made, or the success envelope of a
    [currentWeather] call that named a city. *)
Lemma post_reply (req_body : JsVal) (t : list jstring) (r : JsonRpc.Response) :
  JsonRpc.post key net req_body = (t, Normal r) ->
  exists id,
    Get req_body (lit "id") = Normal id
    /\ ((t = []
         /\ exists code message data,
              r = JsonRpc.reply 200 (JsonRpc.rejection id code message data)
              /\ In code [lit "-32600"; lit "-32601"; lit "-32602"])
        \/ (exists method params city result,
              envelope req_body id method params
              /\ names_currentWeather method
              /\ JsonRpc.extract_city params = Normal city
              /\ truthy city = true
              /\ t = requests (JsonRpc.fetchWeatherData key net city)
              /\ r = JsonRpc.reply 200 (JsonRpc.success id result))).
Proof.
  unfold JsonRpc.post.
  destruct (Get req_body (lit "jsonrpc")) as [jsonrpc|e] eqn:Hv; [io_step|discriminate].
  destruct (Get req_body (lit "id")) as [id|e] eqn:Hi; [io_step|discriminate].
  destruct (Get req_body (lit "method")) as [method|e] eqn:Hm; [io_step|discriminate].
  destruct (Get req_body (lit "params")) as [params|e] eqn:Hp; [io_step|discriminate].
  intros H. exists id. split; [reflexivity|]. revert H.
  destruct (negb (truthy jsonrpc) || negb (is_string jsonrpc (lit "2.0"))) eqn:Hver.
  { destruct (ToString jsonrpc); [io_step|discriminate].
    intros H; inversion H; subst. left. split; [reflexivity|].
    do 3 eexists. split; [reflexivity|]. cbn; auto. }
  destruct (negb (truthy method)) eqn:Hmeth.
  { intros H; inversion H; subst. left. split; [reflexivity|].
    do 3 eexists. split; [reflexivity|]. cbn; auto. }
  destruct (JsonRpc.resolve_method method) as [[tool operation]|e] eqn:Hres;
    [io_step|discriminate].
  destruct (ToString tool) as [shown|e]; [io_step|discriminate].
  destruct (ToString operation) as [shown'|e]; [io_step|discriminate].
  destruct (is_string tool (lit "weather")) eqn:Htool; cbn [negb].
  2:{ intros H; inversion H; subst. left. split; [reflexivity|].
      do 3 eexists. split; [reflexivity|]. cbn; auto. }
  destruct (is_string operation (lit "currentWeather")) eqn:Hop.
  2:{ intros H; inversion H; subst. left. split; [reflexivity|].
      do 3 eexists. split; [reflexivity|]. cbn; auto. }
  apply is_string_true in Htool, Hop. subst tool operation.
  apply orb_false_iff in Hver as [_ Hver].
  apply negb_false_iff, is_string_true in Hver. subst jsonrpc.
  destruct (currentWeather_cases id params)
    as (city & Hc & [[Ht ->] | [Ht (result & -> & _)]]);
    intros H; inversion H; subst.
  - left. split; [reflexivity|].
    do 3 eexists. split; [reflexivity|]. cbn; auto.
  - right. exists method, params, city, result.
    repeat split; assumption.
Qed.

(** Every reply of the handler, by HTTP method. *)
Lemma mcp_unfold (req_method : jstring) (req_body : JsVal) :
  JsonRpc.mcp key net req_method req_body
  = if jstring_eqb req_method (lit "GET") then
      ([], Normal (JsonRpc.reply 200
             (JObj [ (lit "jsonrpc", JStr (lit "2.0"));
                     (lit "result", JObj capabilities) ])))
    else if jstring_eqb req_method (lit "POST") then
      match JsonRpc.post key net req_body with
      | (t, Normal r) => (t, Normal r)
      | (t, Throw _) => (t, Normal JsonRpc.internal_error)
      end
    else
      ([], Normal (JsonRpc.reply 405
             (JsonRpc.anonymous_rejection (lit "-32600") (lit "Invalid Request")
                (lit "HTTP method " ++ req_method ++ lit " not supported")))).
Proof.
  unfold JsonRpc.mcp.
  destruct (jstring_eqb req_method (lit "GET")); [reflexivity|].
  destruct (jstring_eqb req_method (lit "POST")); [|reflexivity].
  destruct (JsonRpc.post key net req_body) as [t [r|e]]; cbn; [reflexivity|].
  now rewrite app_nil_r.
Qed.

(** Nothing has been requested when the body of a [POST] raises. *)
Lemma post_fault_no_request (req_body : JsVal) (t : list jstring) (e : JsError) :
  JsonRpc.post key net req_body = (t, Throw e) -> t = [].
Proof.
  unfold JsonRpc.post.
  destruct (Get req_body (lit "jsonrpc")) as [jsonrpc|e1];
    [io_step|intros H; now inversion H].
  destruct (Get req_body (lit "id")) as [id|e1];
    [io_step|intros H; now inversion H].
  destruct (Get req_body (lit "method")) as [method|e1];
    [io_step|intros H; now inversion H].
  destruct (Get req_body (lit "params")) as [params|e1];
    [io_step|intros H; now inversion H].
  destruct (negb (truthy jsonrpc) || negb (is_string jsonrpc (lit "2.0"))).
  { destruct (ToString jsonrpc); [io_step|]; intros H; now inversion H. }
  destruct (negb (truthy method)); [intros H; now inversion H|].
  destruct (JsonRpc.resolve_method method) as [[tool operation]|e1];
    [io_step|intros H; now inversion H].
  destruct (ToString tool) as [shown|e1]; [io_step|intros H; now inversion H].
  destruct (ToString operation) as [shown'|e1];
    [io_step|intros H; now inversion H].
  destruct (negb (is_string tool (lit "weather"))); [intros H; now inversion H|].
  destruct (is_string operation (lit "currentWeather")).
  - destruct (currentWeather_total key net id params) as [r Hr].
    intros H. rewrite H in Hr. discriminate.
  - intros H; now inversion H.
Qed.
End Replies.

(** X6.  A request that is answered with an error envelope has cost no
    call to the provider. *)
Theorem rejections_make_no_request
    (key : jstring) (net : Network) (req_method : jstring) (req_body : JsVal)
    (r : JsonRpc.Response) :
  outcome (JsonRpc.mcp key net req_method req_body) = Normal r ->
  is_error_envelope r.(JsonRpc.body) = true ->
  requests (JsonRpc.mcp key net req_method req_body) = [].
Proof.
  rewrite mcp_unfold.
  destruct (jstring_eqb req_method (lit "GET")); [reflexivity|].
  destruct (jstring_eqb req_method (lit "POST")); [|reflexivity].
  destruct (JsonRpc.post key net req_body) as [t [r'|e]] eqn:Hp.
  - cbn. intros H He. apply Normal_inj in H. subst r'.
    destruct (post_reply key net req_body t r Hp)
      as (id & _ & [[-> _] | (method & params & city & result & _ & _ & _ & _ & _ & ->)]);
      [reflexivity|discriminate].
  - intros _ _. cbn. apply (post_fault_no_request key net req_body t e Hp).
Qed.

Lemma rejections_make_no_request_witness :
  requests (JsonRpc.mcp DEFAULT_API_KEY (net_answers london) (lit "POST")
              (request (JNum (lit "7")) (JStr (lit "weather.forecast"))
                       (JStr (lit "London"))))
  = [].
Proof.
  apply (rejections_make_no_request DEFAULT_API_KEY (net_answers london)
           (lit "POST")
           (request (JNum (lit "7")) (JStr (lit "weather.forecast"))
                    (JStr (lit "London")))
           (JsonRpc.reply 200
              (JsonRpc.rejection (JNum (lit "7")) (lit "-32601")
                 (lit "Method not found")
                 (lit "Unsupported operation: forecast")))).
  - reflexivity.
  - reflexivity.
Defined.

(** X7.  The provider is contacted only for a [POST] whose envelope has
    the supported version, whose method resolves to the [weather] tool's
    [currentWeather] and whose city is a non-empty string; and then once,
    with the request of the client for that city. *)
Theorem provider_contact_needs_currentWeather
    (key : jstring) (net : Network) (req_method : jstring) (req_body : JsVal) :
  requests (JsonRpc.mcp key net req_method req_body) <> [] ->
  req_method = lit "POST"
  /\ exists id method params s query,
       envelope req_body id method params
       /\ names_currentWeather method
       /\ JsonRpc.extract_city params = Normal (JStr s)
       /\ s <> []
       /\ encodeURIComponent (trim_string s) = Normal query
       /\ requests (JsonRpc.mcp key net req_method req_body) = [api_url key query].
Proof.
  rewrite mcp_unfold.
  destruct (jstring_eqb req_method (lit "GET")); [intros H; now elim H|].
  destruct (jstring_eqb req_method (lit "POST")) eqn:Hm; [|intros H; now elim H].
  apply jstring_eqb_eq in Hm.
  destruct (JsonRpc.post key net req_body) as [t [r|e]] eqn:Hp;
    cbn [requests fst]; intros Ht.
  - split; [exact Hm|].
    destruct (post_reply key net req_body t r Hp)
      as (id & _ & [[-> _] | (method & params & city & result
                               & He & Hn & Hc & _ & Hreq & _)]);
      [now elim Ht|].
    subst t. rewrite fetchWeatherData_variants in Ht |- *.
    destruct (client_asks key net city)
      as [H | (s & query & -> & Hs & _ & Henc & Hr)]; [now elim Ht|].
    exists id, method, params, s, query. auto 10.
  - elim Ht. apply (post_fault_no_request key net req_body t e Hp).
Qed.

Lemma provider_contact_needs_currentWeather_witness :
  lit "POST" = lit "POST"
  /\ exists id method params s query,
       envelope (request (JNum (lit "7")) (JStr (lit "currentWeather"))
                         (JStr (lit "London"))) id method params
       /\ names_currentWeather method
       /\ JsonRpc.extract_city params = Normal (JStr s)
       /\ s <> []
       /\ encodeURIComponent (trim_string s) = Normal query
       /\ requests (JsonRpc.mcp DEFAULT_API_KEY net_down (lit "POST")
                      (request (JNum (lit "7")) (JStr (lit "currentWeather"))
                               (JStr (lit "London"))))
          = [api_url DEFAULT_API_KEY query].
Proof.
  apply (provider_contact_needs_currentWeather DEFAULT_API_KEY net_down
           (lit "POST")
           (request (JNum (lit "7")) (JStr (lit "currentWeather"))
                    (JStr (lit "London")))).
  vm_compute. discriminate.
Defined.

(** X8.  Every reply is a JSON-RPC 2.0 envelope with exactly one of
    [result] and [error].  Status 200 carries a result or a rejection with
    code -32600, -32601 or -32602; status 405 carries -32600; status 500
    carries -32603; there is no other status. *)
Theorem reply_is_an_envelope
    (key : jstring) (net : Network) (req_method : jstring) (req_body : JsVal) :
  exists r,
    outcome (JsonRpc.mcp key net req_method req_body) = Normal r
    /\ member r.(JsonRpc.body) (lit "jsonrpc") = JStr (lit "2.0")
    /\ ((r.(JsonRpc.status) = 200%N
         /\ is_success_envelope r.(JsonRpc.body) = true)
        \/ (is_error_envelope r.(JsonRpc.body) = true
            /\ has_member r.(JsonRpc.body) (lit "result") = false
            /\ ((r.(JsonRpc.status) = 200%N
                 /\ exists code,
                      error_code r.(JsonRpc.body) = JNum code
                      /\ In code [lit "-32600"; lit "-32601"; lit "-32602"])
                \/ (r.(JsonRpc.status) = 405%N
                    /\ error_code r.(JsonRpc.body) = JNum (lit "-32600"))
                \/ (r.(JsonRpc.status) = 500%N
                    /\ error_code r.(JsonRpc.body) = JNum (lit "-32603"))))).
Proof.
  rewrite mcp_unfold.
  destruct (jstring_eqb req_method (lit "GET")).
  { eexists. split; [reflexivity|]. split; [reflexivity|]. left. now split. }
  destruct (jstring_eqb req_method (lit "POST")).
  2:{ eexists. split; [reflexivity|]. split; [reflexivity|].
      right. repeat split. right; left. now split. }
  destruct (JsonRpc.post key net req_body) as [t [r|e]] eqn:Hp.
  - exists r. split; [reflexivity|].
    destruct (post_reply key net req_body t r Hp)
      as (id & _ & [[_ (code & message & data & -> & Hin)]
                   | (method & params & city & result & _ & _ & _ & _ & _ & ->)]).
    + split; [reflexivity|]. right. repeat split. left.
      split; [reflexivity|]. exists code. now split.
    + split; [reflexivity|]. left. now split.
  - eexists. split; [reflexivity|]. split; [reflexivity|].
    right. repeat split. right; right. now split.
Qed.

(** X9.  A truthy identifier comes back: every status-200 reply to a
    [POST], result or rejection, carries the identifier of the request when
    that identifier is truthy. *)
Theorem truthy_identifier_is_echoed
    (key : jstring) (net : Network) (req_body id : JsVal) (r : JsonRpc.Response) :
  Get req_body (lit "id") = Normal id ->
  truthy id = true ->
  outcome (JsonRpc.mcp key net (lit "POST") req_body) = Normal r ->
  r.(JsonRpc.status) = 200%N ->
  member r.(JsonRpc.body) (lit "id") = id.
Proof.
  intros Hid Ht. rewrite mcp_unfold.
  replace (jstring_eqb (lit "POST") (lit "GET")) with false by reflexivity.
  replace (jstring_eqb (lit "POST") (lit "POST")) with true by reflexivity.
  destruct (JsonRpc.post key net req_body) as [t [r'|e]] eqn:Hp; cbn.
  - intros H _. apply Normal_inj in H. subst r'.
    destruct (post_reply key net req_body t r Hp)
      as (id' & Hid' & [[_ (code & message & data & -> & _)]
                       | (method & params & city & result & _ & _ & _ & _ & _ & ->)]);
      rewrite Hid in Hid'; apply Normal_inj in Hid'; subst id';
      cbn; unfold js_or; now rewrite Ht.
  - intros H. apply Normal_inj in H. subst r. discriminate.
Qed.

Lemma truthy_identifier_is_echoed_witness :
  member (JsonRpc.rejection (JStr (lit "req-1")) (lit "-32601")
            (lit "Method not found") (lit "Unsupported tool: news. Currently only 'weather' tool is supported."))
         (lit "id")
  = JStr (lit "req-1").
Proof.
  apply (truthy_identifier_is_echoed DEFAULT_API_KEY net_down
           (request (JStr (lit "req-1")) (JStr (lit "news.today")) JNull)
           (JStr (lit "req-1"))
           (JsonRpc.reply 200
              (JsonRpc.rejection (JStr (lit "req-1")) (lit "-32601")
                 (lit "Method not found")
                 (lit "Unsupported tool: news. Currently only 'weather' tool is supported.")))).
  - reflexivity.
  - reflexivity.
  - reflexivity.
  - reflexivity.
Defined.

Lemma Get_others (v : JsVal) (k k' : jstring) (w : JsVal) :
  Get v k = Normal w -> exists w', Get v k' = Normal w'.
Proof. destruct v; cbn; try discriminate; eauto. Qed.

Lemma Get_nullish (v : JsVal) (k : jstring) :
  Get v k = if is_nullish v then Throw TypeError else Normal (member v k).
Proof. now destruct v. Qed.

(** X10.  A [POST] whose version marker is missing or is not the string
    ["2.0"] is rejected as an invalid request (code -32600, status 200)
    without any request, provided the marker can be printed for the log. *)
Theorem unsupported_version_is_invalid_request
    (key : jstring) (net : Network) (req_body version id : JsVal) (shown : jstring) :
  Get req_body (lit "jsonrpc") = Normal version ->
  Get req_body (lit "id") = Normal id ->
  is_string version (lit "2.0") = false ->
  ToString version = Normal shown ->
  JsonRpc.mcp key net (lit "POST") req_body
  = ([], Normal (JsonRpc.reply 200
       (JsonRpc.rejection id (lit "-32600") (lit "Invalid Request")
          (lit "Request must follow JSON-RPC 2.0 specification")))).
Proof.
  intros Hv Hi Hs Hp.
  destruct (Get_others req_body _ (lit "method") _ Hv) as [method Hm].
  destruct (Get_others req_body _ (lit "params") _ Hv) as [params Hpa].
  unfold JsonRpc.mcp, JsonRpc.post.
  rewrite Hv; io_step. rewrite Hi; io_step.
  rewrite Hm; io_step. rewrite Hpa; io_step.
  rewrite Hs, Hp, orb_true_r. reflexivity.
Qed.

Lemma unsupported_version_is_invalid_request_witness :
  JsonRpc.mcp DEFAULT_API_KEY net_down (lit "POST")
    (JObj [ (lit "jsonrpc", JStr (lit "1.0")); (lit "id", JNum (lit "7"));
            (lit "method", JStr (lit "currentWeather")) ])
  = ([], Normal (JsonRpc.reply 200
       (JsonRpc.rejection (JNum (lit "7")) (lit "-32600") (lit "Invalid Request")
          (lit "Request must follow JSON-RPC 2.0 specification")))).
Proof.
  apply (unsupported_version_is_invalid_request DEFAULT_API_KEY net_down
           _ (JStr (lit "1.0")) (JNum (lit "7")) (lit "1.0")); reflexivity.
Defined.

(** X11.  A [POST] with the supported version and a missing or falsy
    method is rejected as an invalid request (code -32600) that says the
    method is required. *)
Theorem missing_method_is_invalid_request
    (key : jstring) (net : Network) (req_body id method params : JsVal) :
  envelope req_body id method params ->
  truthy method = false ->
  JsonRpc.mcp key net (lit "POST") req_body
  = ([], Normal (JsonRpc.reply 200
       (JsonRpc.rejection id (lit "-32600") (lit "Invalid Request")
          (lit "Method is required")))).
Proof.
  intros [Hv Hi Hm Hp] Ht.
  unfold JsonRpc.mcp, JsonRpc.post.
  rewrite Hv; io_step. rewrite Hi; io_step.
  rewrite Hm; io_step. rewrite Hp; io_step.
  rewrite Ht. reflexivity.
Qed.

Lemma missing_method_is_invalid_request_witness :
  JsonRpc.mcp DEFAULT_API_KEY net_down (lit "POST")
    (request (JNum (lit "7")) (JStr []) (JStr (lit "London")))
  = ([], Normal (JsonRpc.reply 200
       (JsonRpc.rejection (JNum (lit "7")) (lit "-32600") (lit "Invalid Request")
          (lit "Method is required")))).
Proof.
  apply (missing_method_is_invalid_request DEFAULT_API_KEY net_down
           _ (JNum (lit "7")) (JStr []) (JStr (lit "London"))).
  - split; reflexivity.
  - reflexivity.
Defined.

(** X12.  A method string that does not resolve to the [weather] tool's
    [currentWeather] is rejected as method not found (code -32601) without
    any request: the detail names the tool when the tool is not [weather],
    else the operation. *)
Theorem unknown_method_is_not_found
    (key : jstring) (net : Network) (req_body id params : JsVal) (s : jstring) :
  envelope req_body id (JStr s) params ->
  s <> [] ->
  resolve_segments s <> (lit "weather", lit "currentWeather") ->
  JsonRpc.mcp key net (lit "POST") req_body
  = ([], Normal (JsonRpc.reply 200
       (JsonRpc.rejection id (lit "-32601") (lit "Method not found")
          (if jstring_eqb (fst (resolve_segments s)) (lit "weather")
           then lit "Unsupported operation: " ++ snd (resolve_segments s)
           else lit "Unsupported tool: " ++ fst (resolve_segments s)
                ++ lit ". Currently only 'weather' tool is supported.")))).
Proof.
  intros [Hv Hi Hm Hp] Hs Hne.
  unfold JsonRpc.mcp, JsonRpc.post.
  rewrite Hv; io_step. rewrite Hi; io_step.
  rewrite Hm; io_step. rewrite Hp; io_step.
  apply truthy_string in Hs. rewrite Hs.
  rewrite resolve_method_string; io_step.
  destruct (resolve_segments s) as [tool operation].
  cbn [fst snd ToString negb] in *.
  replace (negb (truthy (JStr (lit "2.0")))
           || negb (is_string (JStr (lit "2.0")) (lit "2.0")))
    with false by reflexivity.
  io_step. cbn [is_string].
  destruct (jstring_eqb tool (lit "weather")) eqn:Ht; cbn [negb]; [|reflexivity].
  destruct (jstring_eqb operation (lit "currentWeather")) eqn:Ho; [|reflexivity].
  apply jstring_eqb_eq in Ht, Ho. subst. now elim Hne.
Qed.

Lemma unknown_method_is_not_found_witness :
  JsonRpc.mcp DEFAULT_API_KEY net_down (lit "POST")
    (request (JNum (lit "7")) (JStr (lit "forecast")) (JStr (lit "London")))
  = ([], Normal (JsonRpc.reply 200
       (JsonRpc.rejection (JNum (lit "7")) (lit "-32601") (lit "Method not found")
          (lit "Unsupported operation: forecast")))).
Proof.
  apply (unknown_method_is_not_found DEFAULT_API_KEY net_down
           _ (JNum (lit "7")) (JStr (lit "London")) (lit "forecast")).
  - split; reflexivity.
  - discriminate.
  - vm_compute. discriminate.
Defined.

(** X13.  Of the requests that reach the handler (an [OPTIONS] request is
    answered by the cors middleware and never does): a [GET] is answered
    with the capability descriptor whatever the body, the credential and
    the network; a method other than [GET], [POST] and [OPTIONS] is
    answered with status 405 and an invalid-request rejection that names
    the method and has no identifier. *)
Theorem other_http_methods
    (key : jstring) (net : Network) (req_method : jstring) (req_body : JsVal) :
  JsonRpc.mcp key net (lit "GET") req_body
  = ([], Normal (JsonRpc.reply 200
       (JObj [ (lit "jsonrpc", JStr (lit "2.0"));
               (lit "result", JObj capabilities) ])))
  /\ (req_method <> lit "GET" -> req_method <> lit "POST" ->
      req_method <> lit "OPTIONS" ->
      JsonRpc.mcp key net req_method req_body
      = ([], Normal (JsonRpc.reply 405
           (JObj [ (lit "jsonrpc", JStr (lit "2.0"));
                   (lit "error", JObj
                     [ (lit "code", JNum (lit "-32600"));
                       (lit "message", JStr (lit "Invalid Request"));
                       (lit "data", JStr (lit "HTTP method " ++ req_method
                                          ++ lit " not supported")) ]) ])))).
Proof.
  split; [reflexivity|].
  intros Hg Hp _. rewrite mcp_unfold.
  destruct (jstring_eqb req_method (lit "GET")) eqn:Eg.
  { apply jstring_eqb_eq in Eg. contradiction. }
  destruct (jstring_eqb req_method (lit "POST")) eqn:Ep.
  { apply jstring_eqb_eq in Ep. contradiction. }
  reflexivity.
Qed.

Lemma other_http_methods_witness :
  JsonRpc.mcp DEFAULT_API_KEY net_down (lit "DELETE") JUndefined
  = ([], Normal (JsonRpc.reply 405
       (JObj [ (lit "jsonrpc", JStr (lit "2.0"));
               (lit "error", JObj
                 [ (lit "code", JNum (lit "-32600"));
                   (lit "message", JStr (lit "Invalid Request"));
                   (lit "data", JStr (lit "HTTP method DELETE not supported")) ]) ]))).
Proof.
  apply (proj2 (other_http_methods DEFAULT_API_KEY net_down (lit "DELETE")
                  JUndefined)); discriminate.
Defined.

(** X14.  A city that is truthy but not a string (a number, [true], an
    array, an object) is not rejected as invalid params: the lookup raises
    inside the operation and the reply is the UnavailableResult success
    envelope, without any request. *)
Theorem non_string_city_is_unavailable
    (key : jstring) (net : Network) (req_body id method params city : JsVal) :
  envelope req_body id method params ->
  names_currentWeather method ->
  JsonRpc.extract_city params = Normal city ->
  truthy city = true ->
  is_string_type city = false ->
  JsonRpc.mcp key net (lit "POST") req_body
  = ([], Normal (JsonRpc.reply 200 (JsonRpc.success id UnavailableResult))).
Proof.
  intros He Hn Hc Ht Hs.
  rewrite (mcp_post_dispatch key net _ _ _ _ He Hn), outer_catch_idle.
  assert (Hf : JsonRpc.fetchWeatherData key net city = ([], Throw TypeError)
               \/ JsonRpc.fetchWeatherData key net city = ([], Throw key_required)).
  { rewrite fetchWeatherData_variants, fetchWeatherData_unfold, Ht.
    cbn [negb]. destruct (truthy (isValidApiKey key)); cbn [negb]; [left|now right].
    destruct city; try reflexivity; discriminate. }
  destruct Hf as [Hf | Hf].
  - rewrite (currentWeather_provider_fault key net id params city TypeError Hc Ht);
      now rewrite Hf.
  - rewrite (currentWeather_provider_fault key net id params city key_required Hc Ht);
      now rewrite Hf.
Qed.

Lemma non_string_city_is_unavailable_witness :
  JsonRpc.mcp DEFAULT_API_KEY (net_answers london) (lit "POST")
    (request (JNum (lit "7")) (JStr (lit "currentWeather"))
             (JObj [ (lit "city", JNum (lit "42")) ]))
  = ([], Normal (JsonRpc.reply 200
                   (JsonRpc.success (JNum (lit "7")) UnavailableResult))).
Proof.
  apply (non_string_city_is_unavailable DEFAULT_API_KEY (net_answers london)
           _ (JNum (lit "7")) (JStr (lit "currentWeather"))
           (JObj [ (lit "city", JNum (lit "42")) ]) (JNum (lit "42"))).
  - split; reflexivity.
  - reflexivity.
  - reflexivity.
  - reflexivity.
  - reflexivity.
Defined.

(* ================================================================= *)
(** ** Further properties of the normalization *)

Ltac open_result H :=
  repeat match type of H with
         | context [cbind ?c _] =>
             let v := fresh "v" in
             destruct c as [v|] ; cbn [cbind] in H; [|discriminate H]
         end.

(** X15.  Whatever the provider sent, a normalization that succeeds yields
    the fixed schema: the five top-level members and the thirteen members
    of [current], by their fixed names and in that order, with
    [temperatureUnit] equal to ["C"] and [weather] a string. *)
Theorem weather_result_schema (data result : JsVal) :
  weather_result data = Normal result ->
  member_names result
  = [ lit "city"; lit "country"; lit "region"; lit "localtime"; lit "current" ]
  /\ member_names (member result (lit "current"))
     = [ lit "temperature"; lit "temperatureUnit"; lit "weather";
         lit "weatherIcon"; lit "windSpeed"; lit "windDirection";
         lit "humidity"; lit "feelsLike"; lit "uvIndex"; lit "visibility";
         lit "precipitation"; lit "cloudCover"; lit "pressure" ]
  /\ member (member result (lit "current")) (lit "temperatureUnit")
     = JStr (lit "C")
  /\ exists w, member (member result (lit "current")) (lit "weather") = JStr w.
Proof.
  unfold weather_result. intros H. open_result H.
  apply Normal_inj in H. subst result.
  repeat split. eexists. reflexivity.
Qed.

Lemma weather_result_schema_witness :
  member (member (NormalizedWeather [] [] [] []) (lit "current"))
         (lit "temperatureUnit")
  = JStr (lit "C").
Proof.
  apply (weather_result_schema
           (JObj [ (lit "location", JObj []);
                   (lit "current", JObj
                      [ (lit "weather_descriptions", JArr []);
                        (lit "weather_icons", JArr []) ]) ])
           (NormalizedWeather [] [] [] [])).
  reflexivity.
Defined.

Lemma path_unfold (data : JsVal) (a b : jstring) :
  path data a b
  = if is_nullish data then Throw TypeError
    else if is_nullish (member data a) then Throw TypeError
    else Normal (member (member data a) b).
Proof.
  unfold path. rewrite Get_nullish.
  destruct (is_nullish data); [reflexivity|].
  cbn [cbind]. apply Get_nullish.
Qed.

(** X16.  The normalization succeeds exactly when the payload has a
    [location] and a [current] that are neither [undefined] nor [null],
    [current.weather_descriptions] is an array whose elements can be
    printed, and [current.weather_icons] is neither [undefined] nor
    [null]; every other member may be missing. *)
Theorem weather_result_succeeds_iff (data : JsVal) :
  (exists result, weather_result data = Normal result)
  <-> is_nullish data = false
      /\ is_nullish (member data (lit "location")) = false
      /\ is_nullish (member data (lit "current")) = false
      /\ (exists items w,
            member (member data (lit "current")) (lit "weather_descriptions")
            = JArr items
            /\ join_items ToString (lit ", ") items = Normal w)
      /\ is_nullish (member (member data (lit "current")) (lit "weather_icons"))
         = false.
Proof.
  unfold weather_result. rewrite !path_unfold.
  destruct (is_nullish data).
  { split; [intros [r H]; discriminate|intros [H _]; discriminate]. }
  destruct (is_nullish (member data (lit "location"))).
  { split; [intros [r H]; discriminate|intros (_ & H & _); discriminate]. }
  destruct (is_nullish (member data (lit "current"))).
  { split; [intros [r H]; discriminate|intros (_ & _ & H & _); discriminate]. }
  cbn [cbind].
  set (current := member data (lit "current")).
  destruct (member current (lit "weather_descriptions")) as [| |b|t|s|items|props];
    cbn [join cbind];
    try (split; [intros [r H]; discriminate
                |intros (_ & _ & _ & (items & w & H & _) & _); discriminate]).
  destruct (join_items ToString (lit ", ") items) as [w|e] eqn:Hj; cbn [cbind].
  2:{ split; [intros [r H]; discriminate|].
      intros (_ & _ & _ & (items' & w & H & Hj') & _).
      inversion H; subst items'. rewrite Hj in Hj'. discriminate. }
  destruct (member current (lit "weather_icons")) as [| |b|t|s|icons|props];
    cbn [index0 cbind is_nullish];
    try (split; [intros [r H]; discriminate
                |intros (_ & _ & _ & _ & H); discriminate]);
    (split; [intros _; repeat split; eauto|intros _; eexists; reflexivity]).
Qed.

(* ================================================================= *)
(** ** The two variants side by side *)

Section Variants.
Variable key : jstring.
Variable net : Network.

Lemma currentWeather_named_city (id params city : JsVal) :
  JsonRpc.extract_city params = Normal city ->
  truthy city = true ->
  JsonRpc.currentWeather key net id params
  = (requests (Simple.fetchWeatherData key net city),
     Normal (JsonRpc.reply 200 (JsonRpc.success id (lookup_result key net city)))).
Proof.
  intros Hc Ht. unfold lookup_result.
  rewrite <- fetchWeatherData_variants.
  destruct (outcome (JsonRpc.fetchWeatherData key net city)) as [data|e] eqn:Hf.
  - destruct (weather_result data) as [result|e] eqn:Hw.
    + apply (currentWeather_success key net id params city data result Hc Hf Hw).
    + apply (currentWeather_normalization_fault
               key net id params city data e Hc Ht Hf Hw).
  - apply (currentWeather_provider_fault key net id params city e Hc Ht Hf).
Qed.

Lemma plain_currentWeather (req_body parameters : JsVal) :
  plain_call req_body parameters ->
  Simple.mcp_post key net req_body
  = match Get parameters (lit "city") with
    | Normal city =>
        (requests (Simple.fetchWeatherData key net city),
         Normal (Simple.reply 200 (Simple.Json (JObj
           [ (lit "result", lookup_result key net city) ]))))
    | Throw _ =>
        ([], Normal (Simple.reply 200 (Simple.Json (JObj
           [ (lit "result", UnavailableResult) ]))))
    end.
Proof.
  intros Hp.
  destruct (Get parameters (lit "city")) as [city|e] eqn:Hc.
  - unfold lookup_result.
    destruct (outcome (Simple.fetchWeatherData key net city)) as [data|e] eqn:Hf.
    + destruct (weather_result data) as [result|e] eqn:Hw.
      * apply (plain_success key net _ _ _ data result Hp Hc Hf Hw).
      * destruct Hp as [Ht Ho Hpa]. unfold Simple.mcp_post.
        rewrite Ht; io_step. rewrite Ho; io_step. rewrite Hpa; io_step.
        replace (is_string (JStr (lit "weather")) (lit "weather"))
          with true by reflexivity.
        replace (is_string (JStr (lit "currentWeather")) (lit "currentWeather"))
          with true by reflexivity.
        cbn [negb]. rewrite Hc; io_step.
        destruct (Simple.fetchWeatherData key net city) as [t [d|e']];
          [|discriminate].
        cbn in Hf. apply Normal_inj in Hf. subst d.
        cbn [bind]. rewrite Hw. cbn. now rewrite !app_nil_r.
    + apply (plain_provider_fault key net _ _ _ e Hp Hc Hf).
  - destruct Hp as [Ht Ho Hpa]. unfold Simple.mcp_post.
    rewrite Ht; io_step. rewrite Ho; io_step. rewrite Hpa; io_step.
    replace (is_string (JStr (lit "weather")) (lit "weather"))
      with true by reflexivity.
    replace (is_string (JStr (lit "currentWeather")) (lit "currentWeather"))
      with true by reflexivity.
    cbn [negb]. rewrite Hc. reflexivity.
Qed.

Lemma unusable_city_no_lookup (city : JsVal) :
  truthy city = false \/ is_string_type city = false ->
  requests (Simple.fetchWeatherData key net city) = []
  /\ lookup_result key net city = UnavailableResult.
Proof.
  intros H. unfold lookup_result. rewrite fetchWeatherData_unfold.
  destruct (truthy city) eqn:Ht; cbn [negb]; [|now split].
  destruct H as [H | H]; [discriminate|].
  destruct (truthy (isValidApiKey key)); cbn [negb]; [|now split].
  destruct city; try discriminate; now split.
Qed.
End Variants.

(** X17.  The plain variant has no invalid-params rejection: a
    [currentWeather] call whose parameters are missing, or whose city is
    missing, empty or not a string, is answered with status 200 and the
    UnavailableResult payload, without any request. *)
Theorem plain_missing_city_is_unavailable
    (key : jstring) (net : Network) (req_body parameters : JsVal) :
  plain_call req_body parameters ->
  is_nullish parameters = true
  \/ truthy (member parameters (lit "city")) = false
  \/ is_string_type (member parameters (lit "city")) = false ->
  Simple.mcp_post key net req_body
  = ([], Normal (Simple.reply 200 (Simple.Json (JObj
       [ (lit "result", UnavailableResult) ])))).
Proof.
  intros Hp H. rewrite (plain_currentWeather key net _ _ Hp), Get_nullish.
  destruct (is_nullish parameters); [reflexivity|].
  destruct H as [H | H]; [discriminate|].
  destruct (unusable_city_no_lookup key net _ H) as [-> ->]. reflexivity.
Qed.

Lemma plain_missing_city_is_unavailable_witness :
  Simple.mcp_post DEFAULT_API_KEY (net_answers london)
    (JObj [ (lit "tool", JStr (lit "weather"));
            (lit "operation", JStr (lit "currentWeather")) ])
  = ([], Normal (Simple.reply 200 (Simple.Json (JObj
       [ (lit "result", UnavailableResult) ])))).
Proof.
  apply (plain_missing_city_is_unavailable DEFAULT_API_KEY (net_answers london)
           _ JUndefined).
  - split; reflexivity.
  - left. reflexivity.
Defined.

(** X18.  The plain variant answers a tool other than [weather] with
    status 400 and an error text that names the tool, and an operation of
    the [weather] tool other than [currentWeather] with status 400 and an
    error text that names the operation; neither makes a request. *)
Theorem plain_unsupported_is_400
    (key : jstring) (net : Network) (req_body tool operation : JsVal) :
  Get req_body (lit "tool") = Normal tool ->
  Get req_body (lit "operation") = Normal operation ->
  (forall shown,
     is_string tool (lit "weather") = false ->
     ToString tool = Normal shown ->
     Simple.mcp_post key net req_body
     = ([], Normal (Simple.reply 400 (Simple.Json (JObj
          [ (lit "error",
             JStr (lit "Unsupported tool: " ++ shown
                   ++ lit ". Currently only 'weather' tool is supported.")) ])))))
  /\ (forall shown,
        tool = JStr (lit "weather") ->
        is_string operation (lit "currentWeather") = false ->
        ToString operation = Normal shown ->
        Simple.mcp_post key net req_body
        = ([], Normal (Simple.reply 400 (Simple.Json (JObj
             [ (lit "error", JStr (lit "Unsupported operation: " ++ shown)) ]))))).
Proof.
  intros Ht Ho.
  destruct (Get_others req_body _ (lit "parameters") _ Ht) as [parameters Hp].
  split; intros shown.
  - intros Hw Hs. unfold Simple.mcp_post.
    rewrite Ht; io_step. rewrite Ho; io_step. rewrite Hp; io_step.
    rewrite Hw. cbn [negb]. rewrite Hs; io_step. reflexivity.
  - intros -> Hw Hs. unfold Simple.mcp_post.
    rewrite Ht; io_step. rewrite Ho; io_step. rewrite Hp; io_step.
    replace (is_string (JStr (lit "weather")) (lit "weather"))
      with true by reflexivity.
    cbn [negb]. rewrite Hw, Hs; io_step. reflexivity.
Qed.

Lemma plain_unsupported_is_400_witness :
  Simple.mcp_post DEFAULT_API_KEY net_down
    (JObj [ (lit "operation", JStr (lit "currentWeather")) ])
  = ([], Normal (Simple.reply 400 (Simple.Json (JObj
       [ (lit "error",
          JStr (lit "Unsupported tool: undefined. Currently only 'weather' tool is supported.")) ])))).
Proof.
  apply (proj1 (plain_unsupported_is_400 DEFAULT_API_KEY net_down
                  (JObj [ (lit "operation", JStr (lit "currentWeather")) ])
                  JUndefined (JStr (lit "currentWeather"))
                  eq_refl eq_refl) (lit "undefined")); reflexivity.
Defined.

(** X19.  For the same city, given as the [city] member of an object, the
    two variants make the same requests and answer with the same payload:
    the [result] of the JSON-RPC envelope is the [result] of the plain
    reply, normalized output or sentinel alike. *)
Theorem variants_agree_on_result
    (key : jstring) (net : Network)
    (rpc_body id method plain_body parameters city : JsVal) :
  envelope rpc_body id method parameters ->
  names_currentWeather method ->
  plain_call plain_body parameters ->
  is_object parameters = true ->
  Get parameters (lit "city") = Normal city ->
  truthy city = true ->
  exists result,
    JsonRpc.mcp key net (lit "POST") rpc_body
    = (requests (Simple.fetchWeatherData key net city),
       Normal (JsonRpc.reply 200
                 (JObj [ (lit "jsonrpc", JStr (lit "2.0"));
                         (lit "id", js_or id JNull);
                         (lit "result", result) ])))
    /\ Simple.mcp_post key net plain_body
       = (requests (Simple.fetchWeatherData key net city),
          Normal (Simple.reply 200 (Simple.Json (JObj [ (lit "result", result) ]))))
    /\ Get (JObj [ (lit "jsonrpc", JStr (lit "2.0"));
                   (lit "id", js_or id JNull);
                   (lit "result", result) ]) (lit "result")
       = Get (JObj [ (lit "result", result) ]) (lit "result").
Proof.
  intros He Hn Hp Ho Hc Ht.
  exists (lookup_result key net city). split; [|split; [|reflexivity]].
  - rewrite (mcp_post_dispatch key net _ _ _ _ He Hn), outer_catch_idle.
    apply currentWeather_named_city; [|exact Ht].
    unfold JsonRpc.extract_city. now rewrite Ho.
  - now rewrite (plain_currentWeather key net _ _ Hp), Hc.
Qed.

Lemma variants_agree_on_result_witness :
  exists result,
    JsonRpc.mcp DEFAULT_API_KEY (net_answers london) (lit "POST")
      (request (JNum (lit "7")) (JStr (lit "weather.currentWeather"))
               (JObj [ (lit "city", JStr (lit "London")) ]))
    = (requests (Simple.fetchWeatherData DEFAULT_API_KEY (net_answers london)
                   (JStr (lit "London"))),
       Normal (JsonRpc.reply 200
                 (JObj [ (lit "jsonrpc", JStr (lit "2.0"));
                         (lit "id", js_or (JNum (lit "7")) JNull);
                         (lit "result", result) ])))
    /\ Simple.mcp_post DEFAULT_API_KEY (net_answers london)
         (JObj [ (lit "tool", JStr (lit "weather"));
                 (lit "operation", JStr (lit "currentWeather"));
                 (lit "parameters", JObj [ (lit "city", JStr (lit "London")) ]) ])
       = (requests (Simple.fetchWeatherData DEFAULT_API_KEY (net_answers london)
                      (JStr (lit "London"))),
          Normal (Simple.reply 200 (Simple.Json (JObj [ (lit "result", result) ]))))
    /\ Get (JObj [ (lit "jsonrpc", JStr (lit "2.0"));
                   (lit "id", js_or (JNum (lit "7")) JNull);
                   (lit "result", result) ]) (lit "result")
       = Get (JObj [ (lit "result", result) ]) (lit "result").
Proof.
  apply (variants_agree_on_result DEFAULT_API_KEY (net_answers london)
           _ (JNum (lit "7")) (JStr (lit "weather.currentWeather"))
           _ (JObj [ (lit "city", JStr (lit "London")) ]) (JStr (lit "London"))).
  - split; reflexivity.
  - reflexivity.
  - split; reflexivity.
  - reflexivity.
  - reflexivity.
  - reflexivity.
Defined.

(* ================================================================= *)
(** ** The library function, the command line and the launcher *)

(** X20.  What [getWeatherForCity] returns is the sentinel or the
    provider's own payload, and a payload it returns never has a truthy
    [error] member; it asks the provider exactly as [fetchWeatherData]
    does. *)
Theorem getWeatherForCity_result (key : jstring) (net : Network) (city : JsVal) :
  requests (Simple.getWeatherForCity key net city)
  = requests (Simple.fetchWeatherData key net city)
  /\ exists v,
       outcome (Simple.getWeatherForCity key net city) = Normal v
       /\ (v = UnavailableResult
           \/ (outcome (Simple.fetchWeatherData key net city) = Normal v
               /\ truthy (member v (lit "error")) = false)).
Proof.
  unfold Simple.getWeatherForCity.
  destruct (Simple.fetchWeatherData key net city) as [t [data|e]] eqn:Hf.
  - split; [reflexivity|]. exists data. split; [reflexivity|]. right.
    split; [reflexivity|].
    assert (Ho : outcome (Simple.fetchWeatherData key net city) = Normal data)
      by now rewrite Hf.
    apply client_success in Ho
      as (s & q & response & err & _ & _ & _ & _ & _ & _ & _ & Hg & Herr).
    destruct data; try discriminate; cbn in Hg |- *;
      apply Normal_inj in Hg; now subst.
  - split; [cbn; apply app_nil_r|]. exists UnavailableResult. now split; [|left].
Qed.

Lemma join_texts (sep : jstring) (texts : list jstring) :
  join (JArr (map JStr texts)) sep = Normal (text_join sep texts).
Proof.
  cbn [join].
  induction texts as [|t rest IH]; [reflexivity|].
  cbn [map join_items piece ToString cbind].
  destruct rest as [|t' rest]; [reflexivity|].
  cbn [map] in *. rewrite IH. reflexivity.
Qed.

Lemma text_join_empty (sep : jstring) (texts : list jstring) :
  sep <> [] ->
  text_join sep texts = [] <-> texts = [] \/ texts = [[]].
Proof.
  intros Hsep. destruct texts as [|t [|t' rest]]; cbn.
  - split; auto.
  - split; [intros ->; now right|intros [H | H]; [discriminate|now inversion H]].
  - split.
    + intros H. apply app_eq_nil in H as [_ H].
      apply app_eq_nil in H as [H _]. contradiction.
    + intros [H | H]; discriminate.
Qed.

(** X21.  [node src/index.js weather ...] exits with status 1, having
    asked the provider nothing, exactly when no city is given: no word
    after [weather], or one empty word.  In every other case the run ends
    normally, whatever the lookup gave. *)
Theorem cli_exits_iff_no_city
    (type_error_text uri_error_text : jstring) (net : Network)
    (env_key env_port : option jstring) (words : list jstring) :
  (Cli.ending (Cli.index_js type_error_text uri_error_text net true
                 env_key env_port (lit "weather" :: words)) = Cli.Exit 1
   <-> words = [] \/ words = [[]])
  /\ (Cli.ending (Cli.index_js type_error_text uri_error_text net true
                    env_key env_port (lit "weather" :: words)) = Cli.Exit 1 ->
      Cli.asked (Cli.index_js type_error_text uri_error_text net true
                   env_key env_port (lit "weather" :: words)) = [])
  /\ (Cli.ending (Cli.index_js type_error_text uri_error_text net true
                    env_key env_port (lit "weather" :: words)) = Cli.Exit 1
      \/ Cli.ending (Cli.index_js type_error_text uri_error_text net true
                       env_key env_port (lit "weather" :: words)) = Cli.Done).
Proof.
  unfold Cli.index_js.
  replace (jstring_eqb (lit "weather") (lit "weather")) with true by reflexivity.
  cbn [Cli.ending Cli.asked]. unfold Cli.weather_command.
  rewrite join_texts.
  assert (Hsep : lit " " <> []) by discriminate.
  pose proof (text_join_empty (lit " ") words Hsep) as Hempty.
  destruct (text_join (lit " ") words) as [|c cityArg] eqn:Hj.
  - cbn. repeat split; auto. intros _. now apply Hempty.
  - cbn [truthy negb].
    destruct (Simple.fetchWeatherData _ net (JStr (c :: cityArg))) as [urls [data|e]].
    + destruct (Cli.print_lines (Cli.report data)) as [lines fault].
      cbn. repeat split; auto; try discriminate.
      intros H. apply Hempty in H. discriminate.
    + cbn. repeat split; auto; try discriminate.
      intros H. apply Hempty in H. discriminate.
Qed.

Lemma includes_key_error (text : jstring) :
  Cli.includes_text (lit "API key") (lit "Weatherstack API key error: " ++ text)
  = true.
Proof. reflexivity. Qed.

Lemma includes_api_error (text : jstring) :
  Cli.includes_text (lit "API key") (lit "Weatherstack API error: " ++ text)
  = Cli.includes_text (lit "API key") text.
Proof. reflexivity. Qed.

(** X22.  When the provider answers a lookup with an [error] member, the
    command line reports an API-key error, with the provider's text, if
    the code is 101, 102 or 103 or if the text itself contains [API key];
    otherwise it only says that weather data is not available. *)
Theorem cli_reports_provider_errors
    (type_error_text uri_error_text : jstring) (net : Network)
    (key s query : jstring) (response : HttpResponse)
    (data err code info : JsVal) (text : jstring) :
  s <> [] -> key <> [] ->
  encodeURIComponent (trim_string s) = Normal query ->
  net (api_url key query) = Answered response ->
  response.(ok) = true ->
  response.(json) = Normal data ->
  Get data (lit "error") = Normal err ->
  truthy err = true ->
  Get err (lit "code") = Normal code ->
  Get err (lit "info") = Normal info ->
  ToString info = Normal text ->
  Cli.printed (Cli.weather_command type_error_text uri_error_text net key [s])
  = (Cli.Out, lit "Fetching weather data for " ++ s ++ lit "...")
    :: (if is_number code (lit "101") || is_number code (lit "102")
           || is_number code (lit "103")
        then
          [ (Cli.Err, [10; 10060]%N ++ lit " API Key Error: "
                      ++ lit "Weatherstack API key error: " ++ text);
            (Cli.Out, lit "Please set your Weatherstack API key using:");
            (Cli.Out, lit "export WEATHERSTACK_API_KEY=" ++ [quote]
                      ++ lit "your_api_key_here" ++ [quote]) ]
        else if Cli.includes_text (lit "API key") text then
          [ (Cli.Err, [10; 10060]%N ++ lit " API Key Error: "
                      ++ lit "Weatherstack API error: " ++ text);
            (Cli.Out, lit "Please set your Weatherstack API key using:");
            (Cli.Out, lit "export WEATHERSTACK_API_KEY=" ++ [quote]
                      ++ lit "your_api_key_here" ++ [quote]) ]
        else [ (Cli.Out, [10%N] ++ lit "Weather data is not available") ]).
Proof.
  intros Hs Hk He Hn Hok Hj Hg Herr Hc Hi Ht.
  unfold Cli.weather_command. rewrite join_texts. cbn [text_join].
  apply truthy_string in Hs. apply valid_key in Hk.
  rewrite Hs. cbn [negb].
  rewrite fetchWeatherData_unfold, Hs, Hk. cbn [negb trim]. rewrite He.
  unfold provider_outcome. rewrite Hn, Hok, Hj. cbn [negb cbind].
  unfold check_payload. rewrite Hg. cbn [cbind]. rewrite Herr, Hc. cbn [cbind].
  destruct (is_number code (lit "101") || is_number code (lit "102")
            || is_number code (lit "103"));
    rewrite Hi; cbn [cbind]; rewrite Ht; cbn [cbind Cli.printed];
    unfold Cli.on_error; cbn [Cli.message].
  - now rewrite includes_key_error.
  - rewrite includes_api_error.
    now destruct (Cli.includes_text (lit "API key") text).
Qed.

Lemma cli_reports_provider_errors_witness :
  Cli.printed
    (Cli.weather_command [] [] 
       (net_answers (JObj [ (lit "error", JObj
          [ (lit "code", JNum (lit "615"));
            (lit "info", JStr (lit "Your API request failed.")) ]) ]))
       DEFAULT_API_KEY [ lit "Atlantis" ])
  = [ (Cli.Out, lit "Fetching weather data for Atlantis...");
      (Cli.Out, [10%N] ++ lit "Weather data is not available") ].
Proof.
  apply (cli_reports_provider_errors [] []
           (net_answers (JObj [ (lit "error", JObj
              [ (lit "code", JNum (lit "615"));
                (lit "info", JStr (lit "Your API request failed.")) ]) ]))
           DEFAULT_API_KEY (lit "Atlantis") (lit "Atlantis")
           {| ok := true; statusText := lit "OK";
              json := Normal (JObj [ (lit "error", JObj
                [ (lit "code", JNum (lit "615"));
                  (lit "info", JStr (lit "Your API request failed.")) ]) ]) |}
           (JObj [ (lit "error", JObj
              [ (lit "code", JNum (lit "615"));
                (lit "info", JStr (lit "Your API request failed.")) ]) ])
           (JObj [ (lit "code", JNum (lit "615"));
                     (lit "info", JStr (lit "Your API request failed.")) ])
           (JNum (lit "615")) (JStr (lit "Your API request failed."))
           (lit "Your API request failed."));
    try reflexivity; discriminate.
Defined.

(** X23.  The launcher never runs a lookup: started with a city, it loads
    the module through [require], so the module is not the main script and
    neither its command line nor its server starts; nothing is printed and
    nothing is asked of the provider. *)
Theorem launcher_runs_nothing
    (type_error_text uri_error_text : jstring) (net : Network)
    (env_key env_port : option jstring) (args : list jstring) :
  args <> [] ->
  Cli.bin_cli type_error_text uri_error_text net env_key env_port args
  = Cli.run [] [] Cli.Done.
Proof.
  intros Ha. unfold Cli.bin_cli.
  destruct args as [|a rest]; [contradiction|].
  rewrite join_texts. unfold Cli.index_js.
  now rewrite andb_false_r.
Qed.

Lemma launcher_runs_nothing_witness :
  Cli.bin_cli [] [] (net_answers london) None None [ lit "London" ]
  = Cli.run [] [] Cli.Done.
Proof.
  apply (launcher_runs_nothing [] [] (net_answers london) None None
           [ lit "London" ]).
  discriminate.
Defined.

(** X24.  The server never listens on a falsy port: [startServer] falls
    back to the [PORT] variable, and that to 3000, so a custom port of 0
    is replaced as a missing one is. *)
Theorem startServer_port_is_truthy (env_port : option jstring) (customPort : JsVal) :
  truthy (Cli.startServer env_port customPort) = true
  /\ Cli.startServer env_port (JNum (lit "0")) = Cli.startServer env_port JUndefined
  /\ Cli.startServer None JUndefined = JNum (lit "3000").
Proof.
  unfold Cli.startServer, Cli.port, js_or.
  repeat split.
  destruct (truthy customPort) eqn:Hc; [exact Hc|].
  destruct env_port as [[|c s]|]; reflexivity.
Qed.

(** X25.  A city that cannot be URL-encoded (it holds a surrogate without
    its partner) is answered with the UnavailableResult success envelope
    and costs no request: the client raises before it builds the URL. *)
Theorem unencodable_city_is_unavailable
    (key : jstring) (net : Network) (req_body id method params : JsVal)
    (s : jstring) (e : JsError) :
  envelope req_body id method params ->
  names_currentWeather method ->
  JsonRpc.extract_city params = Normal (JStr s) ->
  s <> [] ->
  encodeURIComponent (trim_string s) = Throw e ->
  JsonRpc.mcp key net (lit "POST") req_body
  = ([], Normal (JsonRpc.reply 200 (JsonRpc.success id UnavailableResult))).
Proof.
  intros He Hn Hc Hs Henc.
  rewrite (mcp_post_dispatch key net _ _ _ _ He Hn), outer_catch_idle.
  apply truthy_string in Hs.
  assert (Hf : exists e', JsonRpc.fetchWeatherData key net (JStr s)
                          = ([], Throw e')).
  { rewrite fetchWeatherData_variants, fetchWeatherData_unfold, Hs.
    cbn [negb trim]. rewrite Henc.
    destruct (negb (truthy (isValidApiKey key))); eauto. }
  destruct Hf as [e' Hf].
  rewrite (currentWeather_provider_fault key net id params (JStr s) e' Hc Hs);
    now rewrite Hf.
Qed.

Lemma unencodable_city_is_unavailable_witness :
  JsonRpc.mcp DEFAULT_API_KEY (net_answers london) (lit "POST")
    (request (JNum (lit "7")) (JStr (lit "currentWeather"))
             (JStr [55357%N]))
  = ([], Normal (JsonRpc.reply 200
                   (JsonRpc.success (JNum (lit "7")) UnavailableResult))).
Proof.
  apply (unencodable_city_is_unavailable DEFAULT_API_KEY (net_answers london)
           _ (JNum (lit "7")) (JStr (lit "currentWeather"))
           (JStr [55357%N]) [55357%N] URIError).
  - split; reflexivity.
  - reflexivity.
  - reflexivity.
  - discriminate.
  - reflexivity.
Defined.
